(** * joe_tracker: opening-count extraction and weekly cumulative series

    A shallow embedding of
      - [extract_position_count], [analyze_date_fields] and
        [create_weekly_cumulative] of process_xls_with_openings.py,
      - the current-year truncation of [generate_data_json] in
        generate_static_site.py,
    followed by the properties of these functions.

    Modelling conventions.
      - Python [int] is [Z].
      - Text is [string] with 8-bit characters: [str.lower] folds A-Z,
        the class \d is 0-9 and the class \w is [a-z A-Z 0-9 _]; these are
        Python's classes restricted to ASCII text.
      - A raised exception is [None] in the [option] monad.
      - A data frame is the list of its rows; a dict is a [gmap]. *)

From Stdlib Require Import ZArith Ascii String Bool.
From stdpp Require Import base option list list_numbers sorting gmap strings.

Local Open Scope Z_scope.

(** ** A backtracking matcher for the fragment of [re] the patterns use *)

Module Re.

(** One-character classes. *)
Inductive cset :=
| CDigit                       (* \d *)
| COneOf (cs : list ascii).    (* [...] *)

(** Pattern syntax.  [Plus] is the greedy [+] applied to a character
    class, the only place where the source's patterns repeat. *)
Inductive regex :=
| Lit (s : string)             (* literal text *)
| Cls (c : cset)               (* one character of a class *)
| Plus (c : cset)              (* c+ , greedy *)
| WordB                        (* \b *)
| Cat (r1 r2 : regex)          (* r1 r2 *)
| Alt (r1 r2 : regex)          (* r1|r2 *)
| Opt (r : regex)              (* r? , greedy *)
| Grp (r : regex).             (* (r) , capture group 1 *)

Definition is_digit (a : ascii) : bool :=
  let n := nat_of_ascii a in (48 <=? n)%nat && (n <=? 57)%nat.

Definition is_word (a : ascii) : bool :=
  let n := nat_of_ascii a in
  is_digit a
  || ((97 <=? n)%nat && (n <=? 122)%nat)
  || ((65 <=? n)%nat && (n <=? 90)%nat)
  || (n =? 95)%nat.

Definition in_cset (c : cset) (a : ascii) : bool :=
  match c with
  | CDigit => is_digit a
  | COneOf cs => existsb (Ascii.eqb a) cs
  end.

(** A matcher configuration: the character just before the cursor, the
    text from the cursor on, and the text captured by group 1 so far. *)
Record cfg := Cfg {
  prev : option ascii;
  rest : string;
  cap : option string
}.

Definition word_opt (o : option ascii) : bool :=
  match o with Some a => is_word a | None => false end.

Definition next_char (s : string) : option ascii :=
  match s with String a _ => Some a | EmptyString => None end.

(** [strip_lit l p s] consumes the literal [l] from the front of [s];
    it yields the last character consumed and the remaining text. *)
Fixpoint strip_lit (l : string) (p : option ascii) (s : string)
  : option (option ascii * string) :=
  match l with
  | EmptyString => Some (p, s)
  | String a l' =>
      match s with
      | String b s' => if Ascii.eqb a b then strip_lit l' (Some b) s' else None
      | EmptyString => None
      end
  end.

(** All the ways [c+] can consume a run at the front of [s], the longest
    first (greedy, giving characters back on backtracking). *)
Fixpoint plus_runs (c : cset) (s : string) (k : option string)
  : list cfg :=
  match s with
  | String a s' =>
      if in_cset c a then plus_runs c s' k ++ [Cfg (Some a) s' k] else []
  | EmptyString => []
  end.

(** The text between the cursor of [c0] and the later cursor of [c1]. *)
Definition consumed (c0 c1 : cfg) : string :=
  substring 0 (String.length (rest c0) - String.length (rest c1))
    (rest c0).

(** [run r c]: every configuration in which a match of [r] started at
    [c] can end, in the order a backtracking engine tries them. *)
Fixpoint run (r : regex) (c : cfg) : list cfg :=
  match r with
  | Lit l =>
      match strip_lit l (prev c) (rest c) with
      | Some (p, s) => [Cfg p s (cap c)]
      | None => []
      end
  | Cls cs =>
      match rest c with
      | String a s => if in_cset cs a then [Cfg (Some a) s (cap c)] else []
      | EmptyString => []
      end
  | Plus cs => plus_runs cs (rest c) (cap c)
  | WordB =>
      if xorb (word_opt (prev c)) (word_opt (next_char (rest c)))
      then [c] else []
  | Cat r1 r2 => flat_map (run r2) (run r1 c)
  | Alt r1 r2 => run r1 c ++ run r2 c
  | Opt r' => run r' c ++ [c]
  | Grp r' =>
      map (fun c' => Cfg (prev c') (rest c') (Some (consumed c c')))
          (run r' c)
  end.

(** A match object; only [group(1)] is ever read. *)
Record match_obj := Match { group1 : option string }.

(** [re.search]: the first match at the leftmost start position. *)
Fixpoint search_from (r : regex) (p : option ascii) (s : string)
  : option match_obj :=
  match run r (Cfg p s None) with
  | c :: _ => Some (Match (cap c))
  | [] =>
      match s with
      | String a s' => search_from r (Some a) s'
      | EmptyString => None
      end
  end.

Definition search (r : regex) (s : string) : option match_obj :=
  search_from r None s.

Definition matches (r : regex) (s : string) : bool :=
  match search r s with Some _ => true | None => false end.

End Re.

Import Re.

Declare Scope re_scope.
Delimit Scope re_scope with re.
Bind Scope re_scope with regex.
Infix "⋅" := Cat (at level 40, left associativity) : re_scope.

(** ** Python values and conversions *)

(** The second component of a pattern-table entry is an arbitrary Python
    object; [isinstance(value, int)] holds exactly of [PyInt]. *)
Inductive pyobj :=
| PyInt (n : Z)
| PyStr (s : string)
| PyNone.

(** [str.lower]. *)
Definition lower_char (a : ascii) : ascii :=
  let n := nat_of_ascii a in
  if (65 <=? n)%nat && (n <=? 90)%nat then ascii_of_nat (n + 32) else a.

Fixpoint lower (s : string) : string :=
  match s with
  | EmptyString => EmptyString
  | String a s' => String (lower_char a) (lower s')
  end.

(** [s[:n]]. *)
Definition slice_to (n : nat) (s : string) : string := substring 0 n s.

(** [int(match.group(1))]: a group that took part in the match is a
    non-empty run of decimal digits and converts; a group that did not is
    [None], on which [int] raises. *)
Fixpoint digits_value (s : string) (acc : Z) : option Z :=
  match s with
  | EmptyString => Some acc
  | String a s' =>
      if is_digit a
      then digits_value s' (10 * acc + (Z.of_nat (nat_of_ascii a) - 48))
      else None
  end.

Definition py_int (g : option string) : option Z :=
  match g with
  | Some (String a s) => digits_value (String a s) 0
  | _ => None
  end.

(** ** extract_position_count *)

Definition number_patterns : list (regex * pyobj) :=
  [ ((Lit "(" ⋅ Grp (Plus CDigit) ⋅ Lit " position" ⋅ Opt (Lit "s")
        ⋅ Lit ")")%re, PyInt 1);
    ((Grp (Plus CDigit) ⋅ Lit " tenure"
        ⋅ Opt (Cls (COneOf ["-"; " "]%char)) ⋅ Lit "track position")%re,
     PyInt 1);
    ((Grp (Plus CDigit) ⋅ Lit " position")%re, PyInt 1);
    ((WordB ⋅ Lit "two" ⋅ WordB)%re, PyInt 2);
    ((WordB ⋅ Lit "three" ⋅ WordB)%re, PyInt 3);
    ((WordB ⋅ Lit "four" ⋅ WordB)%re, PyInt 4);
    ((WordB ⋅ Lit "five" ⋅ WordB)%re, PyInt 5);
    ((WordB ⋅ Lit "six" ⋅ WordB)%re, PyInt 6);
    ((WordB ⋅ Lit "several" ⋅ WordB)%re, PyInt 3);
    ((WordB ⋅ Lit "multiple" ⋅ WordB)%re, PyInt 2) ].

Definition we_are_have : regex :=
  (Lit "we " ⋅ Alt (Lit "are") (Lit "have"))%re.

Definition text_patterns : list (regex * pyobj) :=
  [ ((we_are_have ⋅ Lit " " ⋅ Grp (Plus CDigit) ⋅ Lit " "
        ⋅ Alt (Lit "openings") (Alt (Lit "positions") (Lit "vacancies")))%re,
     PyInt 1);
    ((Grp (Plus CDigit) ⋅ Lit " tenure"
        ⋅ Opt (Cls (COneOf ["-"; " "]%char)) ⋅ Lit "track position"
        ⋅ Opt (Lit "s"))%re, PyInt 1);
    ((Lit "hiring " ⋅ Grp (Plus CDigit) ⋅ Lit " "
        ⋅ Alt (Lit "assistant") (Alt (Lit "associate") (Lit "full")))%re,
     PyInt 1);
    ((Lit "invites applications for " ⋅ Grp (Plus CDigit))%re, PyInt 1);
    ((Lit "we seek " ⋅ Grp (Plus CDigit))%re, PyInt 1);
    ((Lit "recruiting " ⋅ Grp (Plus CDigit))%re, PyInt 1);
    ((we_are_have ⋅ Lit " two")%re, PyInt 2);
    ((we_are_have ⋅ Lit " three")%re, PyInt 3);
    ((we_are_have ⋅ Lit " four")%re, PyInt 4);
    ((we_are_have ⋅ Lit " five")%re, PyInt 5) ].

(** The loop over the title patterns.  The result is the value of [count]
    when the loop is left, or [None] when [int(match.group(1))] raises
    (this loop has no handler). *)
Fixpoint title_loop (pats : list (regex * pyobj)) (title : string)
    (count : Z) : option Z :=
  match pats with
  | [] => Some count
  | (pattern, value) :: pats' =>
      match search pattern title with
      | Some mt =>
          match value with
          | PyInt v => Some v
          | _ => py_int (group1 mt)
          end
      | None => title_loop pats' title count
      end
  end.

(** The loop over the body patterns; a failed conversion is caught and
    sets [count] to 1. *)
Fixpoint text_loop (pats : list (regex * pyobj)) (text : string)
    (count : Z) : Z :=
  match pats with
  | [] => count
  | (pattern, value) :: pats' =>
      match search pattern text with
      | Some mt =>
          match value with
          | PyInt v => v
          | _ => default 1 (py_int (group1 mt))
          end
      | None => text_loop pats' text count
      end
  end.

(** [extract_position_count(row)], with [row.get('jp_title', '')] and
    [row.get('jp_full_text', '')] already converted by [str]. *)
Definition extract_position_count (jp_title jp_full_text : string)
  : option Z :=
  let count := 1 in
  let title := lower jp_title in
  count ← title_loop number_patterns title count;
  let count :=
    if count =? 1
    then
      let full_text := lower jp_full_text in
      text_loop text_patterns (slice_to 1000 full_text) count
    else count in
  Some (Z.min count 10).


(** [any_match pats s]: some pattern of the table matches [s]. *)
Definition any_match (pats : list (regex * pyobj)) (s : string) : bool :=
  existsb (fun pv => matches (fst pv) s) pats.

(** Every entry of a table carries an integer between 1 and 6. *)
Definition int_valued (pats : list (regex * pyobj)) : Prop :=
  Forall (fun pv => exists n, pv.2 = PyInt n /\ 1 <= n <= 6) pats.

(** ** Calendar dates *)

Record date := Date { year : Z; month : Z; day : Z }.

Definition is_leap (y : Z) : bool :=
  ((y mod 4 =? 0) && negb (y mod 100 =? 0)) || (y mod 400 =? 0).

Definition days_in_month (y m : Z) : Z :=
  if m =? 2 then (if is_leap y then 29 else 28)
  else if (m =? 4) || (m =? 6) || (m =? 9) || (m =? 11) then 30
  else 31.

Definition valid_date (d : date) : bool :=
  (1 <=? year d) && (1 <=? month d) && (month d <=? 12)
  && (1 <=? day d) && (day d <=? days_in_month (year d) (month d)).

(** The ISO-8601 week date, computed the way the Python library does:
    the proleptic ordinal of a day, the Monday of ISO week 1 of a year,
    and the (year, week, weekday) triple. *)
Definition days_before_year (y : Z) : Z :=
  let y' := y - 1 in y' * 365 + y' / 4 - y' / 100 + y' / 400.

Definition days_before_month (y m : Z) : Z :=
  nth (Z.to_nat (m - 1))
      [0; 31; 59; 90; 120; 151; 181; 212; 243; 273; 304; 334] 0
  + (if (2 <? m) && is_leap y then 1 else 0).

Definition ymd2ord (y m d : Z) : Z :=
  days_before_year y + days_before_month y m + d.

Definition isoweek1monday (y : Z) : Z :=
  let firstday := ymd2ord y 1 1 in
  let firstweekday := (firstday + 6) mod 7 in
  let week1monday := firstday - firstweekday in
  if 3 <? firstweekday then week1monday + 7 else week1monday.

Definition iso_calendar (x : date) : Z * Z * Z :=
  let y := year x in
  let week1monday := isoweek1monday y in
  let today := ymd2ord (year x) (month x) (day x) in
  let week := (today - week1monday) / 7 in
  let wd := (today - week1monday) mod 7 in
  if week <? 0 then
    let y := y - 1 in
    let week1monday := isoweek1monday y in
    (y, (today - week1monday) / 7 + 1, (today - week1monday) mod 7 + 1)
  else if (52 <=? week) && (isoweek1monday (y + 1) <=? today) then
    (y + 1, 1, wd + 1)
  else (y, week + 1, wd + 1).

(** ** The data frame *)

(** A row as [process_xls_files] leaves it: the [Date_Active] cell (absent,
    or three numbers that may or may not denote a day) and the
    [position_count] column. *)
Record posting := Posting {
  p_Date_Active : option date;
  p_position_count : Z
}.

(** A row after [analyze_date_fields]. *)
Record row := Row {
  Date_Active : date;
  position_count : Z;
  iso_year : Z;
  iso_week : Z;
  academic_year : Z
}.

(** [pd.to_datetime(..., errors='coerce')] on one cell: anything that is
    not a calendar date becomes NaT. *)
Definition to_datetime_coerce (c : option date) : option date :=
  d ← c; if valid_date d then Some d else None.

(** [lambda x: x.year if x.month >= 8 else x.year - 1] *)
Definition academic_year_of (x : date) : Z :=
  if 8 <=? month x then year x else year x - 1.

Section Frame.

(** [Series.dt.isocalendar()] of the data-frame library, one row at a
    time: (year, week, day). *)
Variable isocalendar : date -> Z * Z * Z.

Definition analyze_row (p : posting) : option row :=
  d ← to_datetime_coerce (p_Date_Active p);
  Some {| Date_Active := d;
          position_count := p_position_count p;
          iso_year := (isocalendar d).1.1;
          iso_week := (isocalendar d).1.2;
          academic_year := academic_year_of d |}.

(** [analyze_date_fields(df)]; the frame always has the [Date_Active]
    column here. *)
Definition analyze_date_fields (df : list posting) : list row :=
  omap analyze_row df.

End Frame.

(** ** create_weekly_cumulative *)

Record WeeklySeries := Series {
  weeks : list Z;
  cumulative : list Z;
  total : Z;
  postings : Z
}.

Definition sum_with {A} (f : A -> Z) (l : list A) : Z :=
  foldr (fun a acc => f a + acc) 0 l.

(** [df[df['academic_year'] == ac_year]] *)
Definition rows_of_year (df : list row) (ac_year : Z) : list row :=
  filter (fun r => academic_year r = ac_year) df.

(** [year_data.groupby('iso_week')['position_count'].sum()]: a series
    indexed by the weeks that occur. *)
Definition groupby_week_sum (year_data : list row) : gmap Z Z :=
  foldl (fun s r =>
           <[iso_week r := default 0 (s !! iso_week r) + position_count r]> s)
        ∅ year_data.

(** [range(30, 58)] *)
Definition week_range : list Z := seqZ 30 28.

(** The loop [for week in weeks], threading [total_so_far] and
    [cumulative]. *)
Fixpoint week_loop (week_openings : gmap Z Z) (ws : list Z)
    (total_so_far : Z) (cumulative : list Z) : list Z * Z :=
  match ws with
  | [] => (cumulative, total_so_far)
  | week :: ws' =>
      let total_so_far :=
        match week_openings !! week with
        | Some n => total_so_far + n
        | None => total_so_far
        end in
      week_loop week_openings ws' total_so_far (cumulative ++ [total_so_far])
  end.

Definition year_series (df : list row) (ac_year : Z) : WeeklySeries :=
  let year_data := rows_of_year df ac_year in
  let week_openings := groupby_week_sum year_data in
  let '(cumulative, total_so_far) := week_loop week_openings week_range 0 [] in
  {| weeks := week_range;
     cumulative := cumulative;
     total := total_so_far;
     postings := Z.of_nat (length year_data) |}.

(** [sorted(df['academic_year'].unique())] *)
Definition sorted_years (df : list row) : list Z :=
  merge_sort Z.le (remove_dups (academic_year <$> df)).

Definition create_weekly_cumulative (df : list row) : gmap Z WeeklySeries :=
  foldl (fun weekly_data ac_year =>
           <[ac_year := year_series df ac_year]> weekly_data)
        ∅ (sorted_years df).

(** Vocabulary for the statements about the series: the openings of one
    ISO week of a group, the rows inside the week window, and the list of
    running totals of a list of increments. *)
Definition week_total (year_data : list row) (w : Z) : Z :=
  sum_with position_count (filter (fun r => iso_week r = w) year_data).

Definition in_window (year_data : list row) : list row :=
  filter (fun r => 30 <= iso_week r <= 57) year_data.

Fixpoint running (t : Z) (vs : list Z) : list Z :=
  match vs with
  | [] => []
  | v :: vs' => (t + v) :: running (t + v) vs'
  end.

(** ** The current-year truncation of generate_data_json *)

(** [cumulative[i]] for an index in range. *)
Definition at_index (l : list Z) (i : nat) : Z := default 0 (l !! i).

(** [for i in range(len(cumulative) - 1, 0, -1)], given the indices still
    to visit: stop at the first [i] with [cumulative[i] > cumulative[i-1]]
    and cut both lists after it. *)
Fixpoint truncate_scan (weeks cumulative : list Z) (idx : list nat)
  : list Z * list Z :=
  match idx with
  | [] => (weeks, cumulative)
  | i :: idx' =>
      if at_index cumulative (i - 1) <? at_index cumulative i
      then (take (i + 1) weeks, take (i + 1) cumulative)
      else truncate_scan weeks cumulative idx'
  end.

(** [range(n - 1, 0, -1)] *)
Definition range_down (n : nat) : list nat := reverse (seq 1 (n - 1)).

(** The step applied to the series of [year], from
    [if year == 2025 and len(weeks) > 0]. *)
Definition truncate_current (year : Z) (weeks cumulative : list Z)
  : list Z * list Z :=
  if (year =? 2025) && (0 <? length weeks)%nat
  then truncate_scan weeks cumulative (range_down (length cumulative))
  else (weeks, cumulative).

(** One entry of [section_json]. *)
Definition section_entry (year : Z) (data : WeeklySeries) : WeeklySeries :=
  let '(ws, cs) := truncate_current year (weeks data) (cumulative data) in
  {| weeks := ws; cumulative := cs;
     total := total data; postings := postings data |}.

(** ** Sample frames *)

(** The two September 2024 postings of the specification's example, a
    March 2025 posting, a row without a date and a row with an impossible
    date. *)
Definition sample_postings : list posting :=
  [ Posting (Some (Date 2024 9 15)) 1;
    Posting (Some (Date 2024 9 20)) 3;
    Posting (Some (Date 2025 3 5)) 2;
    Posting None 7;
    Posting (Some (Date 2025 2 30)) 5 ].

Definition sample_rows : list row :=
  analyze_date_fields iso_calendar sample_postings.

Definition sample_series : WeeklySeries :=
  {| weeks := week_range;
     cumulative := [0; 0; 0; 0; 0; 0; 0; 1; 4; 4; 4; 4; 4; 4;
                    4; 4; 4; 4; 4; 4; 4; 4; 4; 4; 4; 4; 4; 4];
     total := 4;
     postings := 3 |}.

Definition sample_march_row : row := Row (Date 2025 3 5) 2 2025 10 2024.

(** A frame whose only posting of academic year 2025 falls outside the
    week window. *)
Definition spring_rows : list row :=
  analyze_date_fields iso_calendar [ Posting (Some (Date 2026 3 4)) 2 ].

Definition spring_series : WeeklySeries :=
  {| weeks := week_range;
     cumulative := replicate 28 0;
     total := 0;
     postings := 1 |}.

(** The entries of [number_patterns] that look for a word rather than for
    digits. *)
Definition word_patterns : list (regex * pyobj) := drop 3 number_patterns.

(** ** The other consumers of the frame *)

(** Rows of a frame whose ISO week lies between two bounds. *)
Definition rows_in_weeks (lo hi : Z) (l : list row) : list row :=
  filter (fun r => lo <= iso_week r <= hi) l.

(** Python's [l[:k]] for an integer [k] of either sign. *)
Definition py_slice_to {A} (k : Z) (l : list A) : list A :=
  if 0 <=? k then take (Z.to_nat k) l
  else take (Z.to_nat (Z.of_nat (length l) + k)) l.

(** generate_static_site.py, the sections other than US academic: the
    same scan, guarded by [len(weeks) > 0] alone. *)
Definition truncate_nonempty (weeks cumulative : list Z)
  : list Z * list Z :=
  if (0 <? length weeks)%nat
  then truncate_scan weeks cumulative (range_down (length cumulative))
  else (weeks, cumulative).

(** process_xls_with_openings.py, create_aea_visualization: the years that
    have a colour, and the (weeks, cumulative) pair stored in [plot_data]
    for one year; [None] is the [continue]. *)
Definition aea_colors : list Z :=
  [2019; 2020; 2021; 2022; 2023; 2024; 2025].

Definition aea_plot_entry (ac_year : Z) (data : WeeklySeries)
  : option (list Z * list Z) :=
  if bool_decide (ac_year ∈ aea_colors) then
    if ac_year =? 2025 then
      let week_37_idx := 7%nat in
      Some (take (week_37_idx + 1) (weeks data),
            take (week_37_idx + 1) (cumulative data))
    else Some (weeks data, cumulative data)
  else None.

(** joe_app.py, create_main_plot: the trace of one selected year, given
    the value of [datetime.now()]; [None] is a [continue]. *)
Definition main_plot_trace (today : date) (df : list row) (ac_year : Z)
  : option (list Z * list Z) :=
  let current_week := (iso_calendar today).1.2 in
  let current_year := year today in
  let year_data := rows_of_year df ac_year in
  if (length year_data =? 0)%nat then None
  else
    let week_openings := groupby_week_sum year_data in
    let weeks := seqZ 30 24 in
    let '(cumulative, _) := week_loop week_openings weeks 0 [] in
    if (ac_year =? current_year - 1)
       || ((ac_year =? current_year) && (month today <? 8))
    then
      let weeks_to_show :=
        Z.min (current_week - 30 + 1) (Z.of_nat (length weeks)) in
      if 0 <? weeks_to_show
      then Some (take (Z.to_nat weeks_to_show) weeks,
                 take (Z.to_nat weeks_to_show) cumulative)
      else None
    else Some (weeks, cumulative).

(** joe_app.py and joe_web_app.py, create_comparison_chart: the bar of one
    year, if it has one. *)
Definition comparison_openings (df : list row) (current_week ac_year : Z)
  : option Z :=
  let year_df :=
    filter (fun r => academic_year r = ac_year /\ iso_week r <= current_week)
           df in
  if (0 <? length year_df)%nat
  then Some (sum_with position_count year_df)
  else None.

(** [year_data['iso_week'].max()]; [None] is the NaN of an empty column. *)
Definition max_iso_week (year_data : list row) : option Z :=
  foldr (fun r acc =>
           Some (match acc with
                 | Some m => Z.max (iso_week r) m
                 | None => iso_week r
                 end))
        None year_data.

(** joe_web_app.py, create_interactive_plot: the trace of one year;
    [None] is the [continue] for years before 2019. *)
Definition interactive_trace (df : list row) (ac_year : Z)
  : option (list Z * list Z) :=
  if ac_year <? 2019 then None
  else
    let year_data := rows_of_year df ac_year in
    let week_openings := groupby_week_sum year_data in
    let weeks := week_range in
    let '(cumulative, _) := week_loop week_openings weeks 0 [] in
    if ac_year =? 2025 then
      match max_iso_week year_data with
      | Some last_week_with_data =>
          let cutoff_idx :=
            Z.min (last_week_with_data - 30 + 1) (Z.of_nat (length weeks)) in
          Some (py_slice_to cutoff_idx weeks,
                py_slice_to cutoff_idx cumulative)
      | None => Some (weeks, cumulative)
      end
    else Some (weeks, cumulative).

(** update_current_year.py: the year whose entries are refreshed, from
    [current_date.year if current_date.month >= 7 else ... - 1]. *)
Definition update_target_year (current_date : date) : Z :=
  if 7 <=? month current_date then year current_date
  else year current_date - 1.

Section Merge.

(** The value stored per section and year. *)
Context {V : Type}.

(** One turn of the loop over [new_data['sections'].items()], with [k]
    the key [str(current_year)]. *)
Definition merge_step (k : string) (section_name : string)
    (section_data : gmap string V)
    (sections : gmap string (gmap string V))
  : gmap string (gmap string V) :=
  let sections :=
    match sections !! section_name with
    | Some _ => sections
    | None => <[section_name := ∅]> sections
    end in
  match section_data !! k with
  | Some v =>
      <[section_name := <[k := v]> (default ∅ (sections !! section_name))]>
        sections
  | None => sections
  end.

Definition merge_current_year (k : string)
    (existing new : gmap string (gmap string V))
  : gmap string (gmap string V) :=
  map_fold (merge_step k) existing new.

End Merge.

(** A body of 1000 blanks followed by a phrase the text patterns know. *)
Definition blanks_1000 : string :=
  string_of_list_ascii (replicate 1000 " "%char).

Definition autumn_rows : list row :=
  analyze_date_fields iso_calendar
    [ Posting (Some (Date 2025 9 15)) 1;
      Posting (Some (Date 2025 9 19)) 3;
      Posting (Some (Date 2026 1 7)) 2 ].

Definition autumn_series : WeeklySeries :=
  {| weeks := week_range;
     cumulative := replicate 8 0 ++ replicate 20 4;
     total := 4;
     postings := 3 |}.

(** Two postings of academic year 2025, in ISO weeks 34 and 38. *)
Definition summer_rows : list row :=
  analyze_date_fields iso_calendar
    [ Posting (Some (Date 2025 8 20)) 2;
      Posting (Some (Date 2025 9 15)) 1 ].

Definition summer_series : WeeklySeries :=
  {| weeks := week_range;
     cumulative := replicate 4 0 ++ replicate 4 2 ++ replicate 20 3;
     total := 3;
     postings := 2 |}.

(** A frame whose latest academic year is 2026: one posting of September
    2025 and two of September 2026 (ISO week 38). *)
Definition latest_rows : list row :=
  analyze_date_fields iso_calendar
    [ Posting (Some (Date 2025 9 15)) 1;
      Posting (Some (Date 2026 9 14)) 1;
      Posting (Some (Date 2026 9 18)) 3 ].

Definition latest_series : WeeklySeries :=
  {| weeks := week_range;
     cumulative := replicate 8 0 ++ replicate 20 4;
     total := 4;
     postings := 2 |}.

(** * Properties *)

(** ** The extractor *)

Section Extractor.

Implicit Types (pats : list (regex * pyobj)) (t : string) (c : Z).

Lemma number_patterns_int_valued : int_valued number_patterns.
Proof. repeat constructor; eexists; (split; [reflexivity | lia]). Qed.

Lemma text_patterns_int_valued : int_valued text_patterns.
Proof. repeat constructor; eexists; (split; [reflexivity | lia]). Qed.

Lemma title_loop_int_valued pats t c :
  int_valued pats ->
  exists n, title_loop pats t c = Some n /\ (n = c \/ 1 <= n <= 6).
Proof.
  induction 1 as [| [p v] pats (n & Hv & Hn) _ IH]; simpl in *.
  - eauto.
  - subst v. destruct (search p t); eauto.
Qed.

Lemma text_loop_int_valued pats t c :
  int_valued pats ->
  text_loop pats t c = c \/ 1 <= text_loop pats t c <= 6.
Proof.
  induction 1 as [| [p v] pats (n & Hv & Hn) _ IH]; simpl in *.
  - auto.
  - subst v. destruct (search p t); auto.
Qed.

(** The function never raises, and its result lies between 1 and 10. *)
Lemma extract_position_count_range (jp_title jp_full_text : string) :
  exists n, extract_position_count jp_title jp_full_text = Some n
            /\ 1 <= n <= 10.
Proof.
  unfold extract_position_count.
  destruct (title_loop_int_valued number_patterns (lower jp_title) 1
              number_patterns_int_valued) as (n & -> & Hn).
  pose proof (text_loop_int_valued text_patterns
                (slice_to 1000 (lower jp_full_text)) 1
                text_patterns_int_valued) as Hb.
  cbn [mbind option_bind]. eexists; split; [reflexivity |].
  destruct (Z.eqb_spec n 1) as [-> | Hne]; lia.
Qed.

Lemma any_match_cons p v pats t :
  any_match ((p, v) :: pats) t = false ->
  search p t = None /\ any_match pats t = false.
Proof.
  unfold any_match, matches; simpl.
  destruct (search p t); simpl; intros; [discriminate | auto].
Qed.

Lemma title_loop_no_match pats t c :
  any_match pats t = false -> title_loop pats t c = Some c.
Proof.
  induction pats as [| [p v] pats IH]; [reflexivity |].
  intros [Hs Hrest]%any_match_cons. simpl. rewrite Hs. apply IH, Hrest.
Qed.

Lemma text_loop_no_match pats t c :
  any_match pats t = false -> text_loop pats t c = c.
Proof.
  induction pats as [| [p v] pats IH]; [reflexivity |].
  intros [Hs Hrest]%any_match_cons. simpl. rewrite Hs. apply IH, Hrest.
Qed.


End Extractor.

(** C7: when no title pattern matches the lower-cased title and no body
    pattern matches the first 1000 characters of the lower-cased body, the
    extractor returns exactly 1. *)
Theorem extract_position_count_default (jp_title jp_full_text : string) :
  any_match number_patterns (lower jp_title) = false ->
  any_match text_patterns (slice_to 1000 (lower jp_full_text)) = false ->
  extract_position_count jp_title jp_full_text = Some 1.
Proof.
  intros Ht Hb. unfold extract_position_count.
  rewrite (title_loop_no_match _ _ _ Ht). cbn [mbind option_bind].
  rewrite Z.eqb_refl, (text_loop_no_match _ _ _ Hb). reflexivity.
Qed.

Lemma extract_position_count_default_witness :
  extract_position_count "Assistant Professor of Economics"
    "The Department invites applications for a position in Labor." = Some 1.
Proof.
  apply extract_position_count_default; vm_compute; reflexivity.
Defined.

(** C1: on the title "99 positions" the third title pattern matches and
    captures 99, yet the function returns 1, not the clamped 10: the
    table's second component 1 is itself an integer, so the captured
    digits are never converted. *)
Theorem extract_position_count_99_positions :
  search (Grp (Plus CDigit) ⋅ Lit " position")%re (lower "99 positions")
    = Some (Match (Some "99"%string))
  /\ extract_position_count "99 positions" "" = Some 1.
Proof. split; vm_compute; reflexivity. Qed.

(** C6: a title with both "several" and "(4 positions)" is decided by the
    first entry of the table, whose integer is 1; the function returns 1
    where the captured count is 4. *)
Theorem extract_position_count_several_4 :
  search (Lit "(" ⋅ Grp (Plus CDigit) ⋅ Lit " position" ⋅ Opt (Lit "s")
            ⋅ Lit ")")%re (lower "several (4 positions)")
    = Some (Match (Some "4"%string))
  /\ matches (WordB ⋅ Lit "several" ⋅ WordB)%re
       (lower "several (4 positions)") = true
  /\ extract_position_count "several (4 positions)" "" = Some 1.
Proof. repeat split; vm_compute; reflexivity. Qed.

(** C5: the title "(1 position)" matches the first title pattern, and the
    body is searched all the same: the result follows the body. *)
Theorem extract_position_count_body_after_title_match :
  any_match number_patterns (lower "(1 position)") = true
  /\ extract_position_count "(1 position)" "" = Some 1
  /\ extract_position_count "(1 position)" "We are two departments" = Some 2
  /\ extract_position_count "(1 position)" "We have five openings" = Some 5.
Proof. repeat split; vm_compute; reflexivity. Qed.

(** ** The aggregator *)

Section SumWith.

Context {A : Type}.
Implicit Types (f g : A -> Z) (l : list A).

Lemma sum_with_app f l k :
  sum_with f (l ++ k) = sum_with f l + sum_with f k.
Proof. induction l as [| a l IH]; simpl; lia. Qed.

Lemma sum_with_add f g l :
  sum_with (fun a => f a + g a) l = sum_with f l + sum_with g l.
Proof. induction l as [| a l IH]; simpl; lia. Qed.

Lemma sum_with_ext f g l :
  (forall a, a ∈ l -> f a = g a) -> sum_with f l = sum_with g l.
Proof.
  induction l as [| a l IH]; simpl; intros Hfg; [reflexivity |].
  rewrite (Hfg a) by left. rewrite IH; [reflexivity |].
  intros b Hb. apply Hfg. by right.
Qed.

Lemma sum_with_zero l : sum_with (fun _ : A => 0) l = 0.
Proof. induction l as [| a l IH]; simpl; lia. Qed.

Lemma sum_with_nonneg f l :
  Forall (fun a => 0 <= f a) l -> 0 <= sum_with f l.
Proof. induction 1; simpl; lia. Qed.

(** Summing an indicator over a duplicate-free list picks one term. *)
Lemma sum_with_indicator `{EqDecision A} (x : A) (v : Z) l :
  NoDup l ->
  sum_with (fun a => if decide (x = a) then v else 0) l
  = if decide (x ∈ l) then v else 0.
Proof.
  induction 1 as [| a l Hnotin Hnd IH].
  - reflexivity.
  - cbn [sum_with foldr]. fold (sum_with (fun a => if decide (x = a) then v else 0) l).
    rewrite IH.
    pose proof (elem_of_cons l x a) as Hcons.
    destruct (decide (x = a)), (decide (x ∈ l)), (decide (x ∈ a :: l));
      try lia; try subst a; tauto.
Qed.

End SumWith.

Section Running.

Implicit Types (t : Z) (vs : list Z).

Lemma length_running t vs : length (running t vs) = length vs.
Proof. revert t; induction vs as [| v vs IH]; simpl; intros; eauto. Qed.

Lemma last_running t v vs :
  last (running t (v :: vs)) = Some (t + sum_with id (v :: vs)).
Proof.
  revert t v; induction vs as [| w vs IH]; intros t v.
  - simpl. f_equal. unfold id. lia.
  - change (running t (v :: w :: vs))
      with ((t + v) :: running (t + v) (w :: vs)).
    rewrite last_cons, IH. simpl. f_equal. unfold id. lia.
Qed.

Lemma running_lookup_S t vs i a b :
  running t vs !! i = Some a -> running t vs !! S i = Some b ->
  exists v, v ∈ vs /\ b = a + v.
Proof.
  revert t i; induction vs as [| v vs IH]; intros t i; [done |].
  destruct i as [| i]; simpl.
  - intros [= <-]. destruct vs as [| w vs]; [done |]. simpl.
    intros [= <-]. exists w. split; [right; left | reflexivity].
  - intros Ha Hb. destruct (IH _ _ Ha Hb) as (w & Hw & ->).
    exists w. split; [by right | reflexivity].
Qed.

Lemma running_lower_bound t vs :
  Forall (fun v => 0 <= v) vs -> Forall (fun c => t <= c) (running t vs).
Proof.
  intros H; revert t; induction H as [| v vs Hv _ IH]; intros t; simpl.
  - constructor.
  - constructor; [lia |].
    eapply Forall_impl; [apply IH |]. simpl. intros; lia.
Qed.

End Running.

Section Aggregator.

Implicit Types (df l : list row) (r : row) (w y : Z) (s : gmap Z Z).

Lemma week_total_cons r l w :
  week_total (r :: l) w
  = (if decide (iso_week r = w) then position_count r else 0)
    + week_total l w.
Proof.
  unfold week_total. rewrite filter_cons.
  destruct (decide (iso_week r = w)); simpl; lia.
Qed.

(** The grouped sum, read with 0 for an absent week, is the week's
    total; stated for the fold from any starting series. *)
Lemma groupby_fold_lookup l s w :
  default 0
    (foldl (fun s r =>
              <[iso_week r :=
                  default 0 (s !! iso_week r) + position_count r]> s)
           s l !! w)
  = default 0 (s !! w) + week_total l w.
Proof.
  revert s; induction l as [| r l IH]; intros s.
  - unfold week_total; simpl; lia.
  - cbn [foldl]. rewrite IH, week_total_cons, lookup_insert.
    destruct (decide (iso_week r = w)) as [-> | Hne]; simpl; lia.
Qed.

Lemma groupby_week_sum_lookup l w :
  default 0 (groupby_week_sum l !! w) = week_total l w.
Proof.
  unfold groupby_week_sum. rewrite groupby_fold_lookup, lookup_empty.
  simpl; lia.
Qed.

Lemma week_loop_spec s ws t acc :
  week_loop s ws t acc
  = (acc ++ running t ((fun w => default 0 (s !! w)) <$> ws),
     t + sum_with (fun w => default 0 (s !! w)) ws).
Proof.
  revert t acc; induction ws as [| w ws IH]; intros t acc.
  - simpl. rewrite app_nil_r. f_equal; lia.
  - cbn [week_loop].
    replace (match s !! w with Some n => t + n | None => t end)
      with (t + default 0 (s !! w))
      by (destruct (s !! w); simpl; lia).
    rewrite IH, <- app_assoc. simpl. f_equal; lia.
Qed.

(** The series of one academic year, in closed form. *)
Lemma year_series_spec df y :
  year_series df y
  = {| weeks := week_range;
       cumulative :=
         running 0 (week_total (rows_of_year df y) <$> week_range);
       total := sum_with (week_total (rows_of_year df y)) week_range;
       postings := Z.of_nat (length (rows_of_year df y)) |}.
Proof.
  unfold year_series. rewrite week_loop_spec. cbn [app].
  f_equal.
  - f_equal. apply list_fmap_ext. intros _ w _.
    apply groupby_week_sum_lookup.
  - rewrite Z.add_0_l. apply sum_with_ext. intros w _.
    apply groupby_week_sum_lookup.
Qed.

Lemma elem_of_week_range w : w ∈ week_range <-> 30 <= w <= 57.
Proof. unfold week_range. rewrite elem_of_seqZ. lia. Qed.

(** Adding up the week totals over the window adds up the rows whose
    week lies in the window. *)
Lemma sum_week_total_window l :
  sum_with (week_total l) week_range
  = sum_with position_count (in_window l).
Proof.
  induction l as [| r l IH].
  - reflexivity.
  - rewrite (sum_with_ext _ _ _ (fun w _ => week_total_cons r l w)).
    rewrite sum_with_add, IH, sum_with_indicator by apply NoDup_seqZ.
    unfold in_window. rewrite filter_cons.
    destruct (decide (iso_week r ∈ week_range)) as [Hin | Hout];
      destruct (decide (30 <= iso_week r <= 57)) as [Hw | Hw];
      rewrite elem_of_week_range in *; try contradiction;
      simpl; lia.
Qed.

Lemma foldl_insert_lookup {V} (f : Z -> V) (ks : list Z)
    (m : gmap Z V) (k : Z) :
  foldl (fun m k => <[k := f k]> m) m ks !! k
  = if decide (k ∈ ks) then Some (f k) else m !! k.
Proof.
  revert m; induction ks as [| j ks IH]; intros m.
  - reflexivity.
  - cbn [foldl]. rewrite IH.
    destruct (decide (k ∈ ks)) as [Hin | Hout].
    + rewrite decide_True; [reflexivity | by right].
    + rewrite lookup_insert.
      destruct (decide (j = k)) as [-> | Hne].
      * rewrite decide_True; [reflexivity | by left].
      * rewrite decide_False; [reflexivity |].
        intros [-> | ?]%elem_of_cons; contradiction.
Qed.

Lemma elem_of_sorted_years df y :
  y ∈ sorted_years df <-> exists r, r ∈ df /\ academic_year r = y.
Proof.
  unfold sorted_years.
  rewrite merge_sort_Permutation, elem_of_remove_dups, list_elem_of_fmap.
  split.
  - intros (r & -> & Hr). eauto.
  - intros (r & Hr & <-). eauto.
Qed.

(** The mapping has one entry per academic year that occurs, holding
    that year's series. *)
Lemma create_weekly_cumulative_lookup df y (ws : WeeklySeries) :
  create_weekly_cumulative df !! y = Some ws
  <-> (exists r, r ∈ df /\ academic_year r = y) /\ ws = year_series df y.
Proof.
  unfold create_weekly_cumulative.
  rewrite foldl_insert_lookup, <- elem_of_sorted_years.
  destruct (decide (y ∈ sorted_years df)) as [Hin | Hout].
  - split; [intros <-%(inj Some); auto | intros [_ ->]; reflexivity].
  - rewrite lookup_empty.
    split; [discriminate | intros [? _]; contradiction].
Qed.

End Aggregator.

Section Series.

Implicit Types (df l : list row) (r : row) (w y : Z).

Lemma week_range_list :
  week_range
  = [30; 31; 32; 33; 34; 35; 36; 37; 38; 39; 40; 41; 42; 43;
     44; 45; 46; 47; 48; 49; 50; 51; 52; 53; 54; 55; 56; 57].
Proof. reflexivity. Qed.

Lemma sum_with_fmap {A} (f : A -> Z) (l : list A) :
  sum_with id (f <$> l) = sum_with f l.
Proof.
  induction l as [| a l IH]; [reflexivity |].
  rewrite fmap_cons. unfold sum_with in *. cbn [foldr].
  rewrite IH. reflexivity.
Qed.

Lemma last_year_series df y :
  last (cumulative (year_series df y)) = Some (total (year_series df y)).
Proof.
  rewrite year_series_spec. cbn [cumulative total].
  rewrite <- (sum_with_fmap (week_total _) week_range).
  rewrite week_range_list. rewrite fmap_cons, last_running.
  f_equal; lia.
Qed.

Lemma week_total_nonneg l w :
  Forall (fun r => 0 <= position_count r) l -> 0 <= week_total l w.
Proof.
  intros Hl. apply sum_with_nonneg.
  rewrite Forall_forall in *. intros r [_ Hr]%list_elem_of_filter. auto.
Qed.

Lemma rows_of_year_nonneg df y :
  Forall (fun r => 0 <= position_count r) df ->
  Forall (fun r => 0 <= position_count r) (rows_of_year df y).
Proof.
  rewrite !Forall_forall. intros Hdf r [_ Hr]%list_elem_of_filter. auto.
Qed.

(** A row outside the window leaves every week total of the window as
    it was. *)
Lemma week_total_outside r l w :
  ~ 30 <= iso_week r <= 57 -> w ∈ week_range ->
  week_total (r :: l) w = week_total l w.
Proof.
  intros Hout Hw%elem_of_week_range. rewrite week_total_cons.
  destruct (decide (iso_week r = w)); lia.
Qed.

End Series.

(** C2: in the series of an academic year, [total] is the sum of
    [position_count] over the rows of that year whose ISO week lies in
    30..57, [total] is the last element of [cumulative], and [postings]
    is the number of all rows of that year; a further row of the year
    whose week lies outside 30..57 raises [postings] by one and leaves
    [cumulative] and [total] as they were. *)
Theorem weekly_series_totals (df : list row) (ac_year : Z)
    (ws : WeeklySeries) :
  create_weekly_cumulative df !! ac_year = Some ws ->
  total ws = sum_with position_count (in_window (rows_of_year df ac_year))
  /\ last (cumulative ws) = Some (total ws)
  /\ postings ws = Z.of_nat (length (rows_of_year df ac_year))
  /\ forall r : row,
       academic_year r = ac_year -> ~ 30 <= iso_week r <= 57 ->
       create_weekly_cumulative (r :: df) !! ac_year
       = Some {| weeks := weeks ws; cumulative := cumulative ws;
                 total := total ws; postings := postings ws + 1 |}.
Proof.
  intros [_ ->]%create_weekly_cumulative_lookup.
  split; [| split; [| split]].
  - rewrite year_series_spec. cbn [total]. apply sum_week_total_window.
  - apply last_year_series.
  - rewrite year_series_spec. reflexivity.
  - intros r Hy Hout. apply create_weekly_cumulative_lookup. split.
    + exists r. split; [left | assumption].
    + rewrite !year_series_spec. cbn [weeks cumulative total postings].
      unfold rows_of_year. rewrite filter_cons_True by assumption.
      f_equal.
      * f_equal. apply list_fmap_ext. intros i w Hw.
        symmetry. apply week_total_outside; [assumption |].
        eapply list_elem_of_lookup_2, Hw.
      * symmetry. apply sum_with_ext. intros w Hw.
        by apply week_total_outside.
      * cbn [length]. lia.
Qed.

Lemma weekly_series_totals_witness :
  create_weekly_cumulative sample_rows !! 2024 = Some sample_series
  /\ total sample_series
     = sum_with position_count (in_window (rows_of_year sample_rows 2024))
  /\ last (cumulative sample_series) = Some 4
  /\ postings sample_series = 3.
Proof.
  assert (H : create_weekly_cumulative sample_rows !! 2024
              = Some sample_series) by (vm_compute; reflexivity).
  split; [exact H |].
  destruct (weekly_series_totals sample_rows 2024 sample_series H)
    as (Ht & Hl & Hp & _).
  split; [exact Ht |]. split; [exact Hl | reflexivity].
Defined.

(** C3: every series has [weeks] equal to 30, 31, ..., 57 (28 strictly
    increasing entries) and a [cumulative] list of the same length whose
    entries are non-negative and never decrease, for rows whose
    [position_count] is non-negative (the extractor gives 1..10). *)
Theorem weekly_series_shape (df : list row) (ac_year : Z)
    (ws : WeeklySeries) :
  Forall (fun r => 0 <= position_count r) df ->
  create_weekly_cumulative df !! ac_year = Some ws ->
  weeks ws
  = [30; 31; 32; 33; 34; 35; 36; 37; 38; 39; 40; 41; 42; 43;
     44; 45; 46; 47; 48; 49; 50; 51; 52; 53; 54; 55; 56; 57]
  /\ length (weeks ws) = 28%nat
  /\ (forall (i : nat) (a b : Z),
        weeks ws !! i = Some a -> weeks ws !! S i = Some b -> a < b)
  /\ length (cumulative ws) = length (weeks ws)
  /\ Forall (fun c => 0 <= c) (cumulative ws)
  /\ (forall (i : nat) (a b : Z),
        cumulative ws !! i = Some a -> cumulative ws !! S i = Some b ->
        a <= b).
Proof.
  intros Hpos [_ ->]%create_weekly_cumulative_lookup.
  rewrite year_series_spec. cbn [weeks cumulative].
  pose proof (rows_of_year_nonneg df ac_year Hpos) as Hyear.
  assert (Hvals : Forall (fun v => 0 <= v)
                    (week_total (rows_of_year df ac_year) <$> week_range)).
  { apply Forall_fmap, Forall_forall. intros w _.
    by apply week_total_nonneg. }
  split; [reflexivity |]. split; [reflexivity |]. split; [| split; [| split]].
  - unfold week_range. intros i a b [-> _]%lookup_seqZ [-> _]%lookup_seqZ. lia.
  - by rewrite length_running, length_fmap.
  - by apply running_lower_bound.
  - intros i a b Ha Hb.
    destruct (running_lookup_S _ _ _ _ _ Ha Hb) as (v & Hv & ->).
    rewrite Forall_forall in Hvals. specialize (Hvals v Hv). simpl in Hvals.
    lia.
Qed.

Lemma weekly_series_shape_witness :
  Forall (fun r => 0 <= position_count r) sample_rows
  /\ create_weekly_cumulative sample_rows !! 2024 = Some sample_series
  /\ length (cumulative sample_series) = length (weeks sample_series)
  /\ Forall (fun c => 0 <= c) (cumulative sample_series).
Proof.
  assert (Hpos : Forall (fun r => 0 <= position_count r) sample_rows)
    by (repeat constructor; vm_compute; discriminate).
  assert (H : create_weekly_cumulative sample_rows !! 2024
              = Some sample_series) by (vm_compute; reflexivity).
  split; [exact Hpos |]. split; [exact H |].
  destruct (weekly_series_shape sample_rows 2024 sample_series Hpos H)
    as (_ & _ & _ & Hlen & Hnonneg & _).
  split; [exact Hlen | exact Hnonneg].
Defined.

(** C9: on the empty frame the aggregator returns the empty mapping. *)
Theorem create_weekly_cumulative_empty : create_weekly_cumulative [] = ∅.
Proof. reflexivity. Qed.

(** ** Academic years *)

Lemma analyze_row_Some (isocalendar : date -> Z * Z * Z) (p : posting)
    (r : row) :
  analyze_row isocalendar p = Some r ->
  valid_date (Date_Active r) = true
  /\ academic_year r = academic_year_of (Date_Active r)
  /\ iso_week r = (isocalendar (Date_Active r)).1.2
  /\ position_count r = p_position_count p.
Proof.
  unfold analyze_row, to_datetime_coerce.
  destruct (p_Date_Active p) as [d |]; simpl; [| discriminate].
  destruct (valid_date d) eqn:Hv; simpl; [| discriminate].
  intros [= <-]. simpl. auto.
Qed.

Lemma valid_date_month (d : date) :
  valid_date d = true -> 1 <= month d <= 12.
Proof. unfold valid_date. lia. Qed.

(** C8: a row that survives [analyze_date_fields] has a calendar date, its
    academic year is the date's year from August on and the year before
    otherwise, and hence academic year Y holds exactly the dates from
    August of year Y to July of year Y+1. *)
Theorem academic_year_august_to_july (isocalendar : date -> Z * Z * Z)
    (df : list posting) (r : row) :
  r ∈ analyze_date_fields isocalendar df ->
  academic_year r
  = (if 8 <=? month (Date_Active r)
     then year (Date_Active r) else year (Date_Active r) - 1)
  /\ forall Y : Z,
       academic_year r = Y
       <-> (year (Date_Active r) = Y /\ 8 <= month (Date_Active r) <= 12)
           \/ (year (Date_Active r) = Y + 1
               /\ 1 <= month (Date_Active r) <= 7).
Proof.
  unfold analyze_date_fields.
  intros (p & _ & Hp)%list_elem_of_omap.
  destruct (analyze_row_Some _ _ _ Hp) as (Hv%valid_date_month & -> & _).
  unfold academic_year_of. split; [reflexivity |].
  intros Y. destruct (Z.leb_spec 8 (month (Date_Active r))); lia.
Qed.

Lemma academic_year_august_to_july_witness :
  sample_march_row ∈ sample_rows
  /\ academic_year sample_march_row = 2025 - 1
  /\ (academic_year sample_march_row = 2024
      <-> (2025 = 2024 /\ 8 <= 3 <= 12) \/ (2025 = 2024 + 1 /\ 1 <= 3 <= 7)).
Proof.
  assert (H : sample_march_row ∈ sample_rows).
  { vm_compute. do 2 apply list_elem_of_further. apply list_elem_of_here. }
  split; [exact H |].
  destruct (academic_year_august_to_july iso_calendar sample_postings
              sample_march_row H) as [Hy Hiff].
  split; [exact Hy | exact (Hiff 2024)].
Defined.

(** ** The current-year truncation *)

Section Truncation.

Implicit Types (ws cs : list Z) (idx : list nat) (i j n : nat).

(** No strict increase at any index to visit: nothing is cut. *)
Lemma truncate_scan_flat ws cs idx :
  (forall j, j ∈ idx -> at_index cs j <= at_index cs (j - 1)) ->
  truncate_scan ws cs idx = (ws, cs).
Proof.
  induction idx as [| i idx IH]; intros Hflat; [reflexivity |].
  cbn [truncate_scan].
  destruct (Z.ltb_spec (at_index cs (i - 1)) (at_index cs i)) as [Hlt | _].
  - specialize (Hflat i ltac:(left)). lia.
  - apply IH. intros j Hj. apply Hflat. by right.
Qed.

(** The scan stops at the first visited index with a strict increase. *)
Lemma truncate_scan_stop ws cs pre i post :
  (forall j, j ∈ pre -> at_index cs j <= at_index cs (j - 1)) ->
  at_index cs (i - 1) < at_index cs i ->
  truncate_scan ws cs (pre ++ i :: post)
  = (take (i + 1) ws, take (i + 1) cs).
Proof.
  intros Hflat Hinc. induction pre as [| j pre IH]; cbn [app truncate_scan].
  - destruct (Z.ltb_spec (at_index cs (i - 1)) (at_index cs i));
      [reflexivity | lia].
  - destruct (Z.ltb_spec (at_index cs (j - 1)) (at_index cs j)) as [Hlt | _].
    + specialize (Hflat j ltac:(left)). lia.
    + apply IH. intros k Hk. apply Hflat. by right.
Qed.

Lemma elem_of_range_down n j : j ∈ range_down n <-> (1 <= j < n)%nat.
Proof. unfold range_down. rewrite elem_of_reverse, elem_of_seq. lia. Qed.

(** The indices visited before [i] are those above it. *)
Lemma range_down_split n i :
  (1 <= i < n)%nat ->
  range_down n
  = reverse (seq (S i) (n - 1 - i)) ++ i :: reverse (seq 1 (i - 1)).
Proof.
  intros Hi. unfold range_down.
  assert (Hseq : seq 1 (n - 1)
                 = seq 1 (i - 1) ++ i :: seq (S i) (n - 1 - i)).
  { replace (n - 1)%nat with ((i - 1) + S (n - 1 - i))%nat at 1 by lia.
    rewrite seq_app. cbn [seq].
    replace (1 + (i - 1))%nat with i by lia. reflexivity. }
  rewrite Hseq, reverse_app, reverse_cons, <- app_assoc. reflexivity.
Qed.

End Truncation.

(** C4: for the year treated as current (2025), when [i >= 1] is the last
    index at which [cumulative] strictly exceeds its predecessor, the
    truncation keeps exactly the first [i + 1] entries of [weeks] and of
    [cumulative], unchanged. *)
Theorem truncate_current_last_increase (weeks cumulative : list Z)
    (i : nat) :
  length weeks = length cumulative ->
  (1 <= i < length cumulative)%nat ->
  at_index cumulative (i - 1) < at_index cumulative i ->
  (forall j : nat,
     (i < j < length cumulative)%nat ->
     at_index cumulative j <= at_index cumulative (j - 1)) ->
  truncate_current 2025 weeks cumulative
  = (take (i + 1) weeks, take (i + 1) cumulative)
  /\ length (take (i + 1) weeks) = (i + 1)%nat
  /\ length (take (i + 1) cumulative) = (i + 1)%nat
  /\ forall k : nat,
       (k <= i)%nat ->
       take (i + 1) weeks !! k = weeks !! k
       /\ take (i + 1) cumulative !! k = cumulative !! k.
Proof.
  intros Hlen Hi Hinc Hlast.
  split; [| split; [| split]].
  - unfold truncate_current.
    replace (0 <? length weeks)%nat with true
      by (symmetry; apply Nat.ltb_lt; lia).
    cbn [Z.eqb Pos.eqb andb].
    rewrite (range_down_split _ i Hi).
    apply truncate_scan_stop; [| assumption].
    intros j Hj%elem_of_reverse%elem_of_seq. apply Hlast. lia.
  - rewrite length_take. lia.
  - rewrite length_take. lia.
  - intros k Hk. split; apply lookup_take_lt; lia.
Qed.

Lemma truncate_current_last_increase_witness :
  truncate_current 2025 [30; 31; 32; 33; 34] [0; 1; 1; 4; 4]
  = ([30; 31; 32; 33], [0; 1; 1; 4]).
Proof.
  refine (proj1 (truncate_current_last_increase
                   [30; 31; 32; 33; 34] [0; 1; 1; 4; 4] 3 _ _ _ _)).
  - reflexivity.
  - simpl; lia.
  - reflexivity.
  - intros j Hj. simpl in Hj.
    assert (j = 4%nat) as -> by lia. vm_compute. discriminate.
Defined.

(** C10: when the series of a year has no index [i >= 1] at which
    [cumulative] strictly exceeds its predecessor, the truncation step
    returns [weeks] and [cumulative] as they are, both still 28 entries
    long. *)
Theorem truncate_current_flat (df : list row) (ac_year : Z)
    (ws : WeeklySeries) :
  create_weekly_cumulative df !! ac_year = Some ws ->
  (forall i : nat,
     (1 <= i < length (cumulative ws))%nat ->
     at_index (cumulative ws) i <= at_index (cumulative ws) (i - 1)) ->
  truncate_current ac_year (weeks ws) (cumulative ws)
  = (weeks ws, cumulative ws)
  /\ section_entry ac_year ws = ws
  /\ length (weeks ws) = 28%nat
  /\ length (cumulative ws) = 28%nat.
Proof.
  intros Hws Hflat.
  assert (Hkeep : truncate_current ac_year (weeks ws) (cumulative ws)
                  = (weeks ws, cumulative ws)).
  { unfold truncate_current.
    destruct ((ac_year =? 2025) && (0 <? length (weeks ws))%nat);
      [| reflexivity].
    apply truncate_scan_flat. intros j Hj%elem_of_range_down. auto. }
  split; [exact Hkeep |]. split.
  - unfold section_entry. rewrite Hkeep. by destruct ws.
  - apply create_weekly_cumulative_lookup in Hws as [_ ->].
    rewrite year_series_spec. cbn [weeks cumulative].
    rewrite length_running, length_fmap. split; reflexivity.
Qed.

Lemma truncate_current_flat_witness :
  create_weekly_cumulative spring_rows !! 2025 = Some spring_series
  /\ truncate_current 2025 (weeks spring_series) (cumulative spring_series)
     = (weeks spring_series, cumulative spring_series)
  /\ length (cumulative spring_series) = 28%nat.
Proof.
  assert (H : create_weekly_cumulative spring_rows !! 2025
              = Some spring_series) by (vm_compute; reflexivity).
  split; [exact H |].
  assert (Hflat : forall i : nat,
             (1 <= i < length (cumulative spring_series))%nat ->
             at_index (cumulative spring_series) i
             <= at_index (cumulative spring_series) (i - 1)).
  { assert (H0 : forall k : nat, at_index (replicate 28 0) k = 0).
    { intros k. unfold at_index.
      destruct (replicate 28 0 !! k) as [z |] eqn:Hz; [| reflexivity].
      apply lookup_replicate_1 in Hz as [-> _]. reflexivity. }
    intros i _. unfold spring_series. cbn [cumulative].
    rewrite !H0. lia. }
  destruct (truncate_current_flat spring_rows 2025 spring_series H Hflat)
    as (Hkeep & _ & _ & Hlen).
  split; [exact Hkeep | exact Hlen].
Defined.

(** * Further properties *)

(** ** The extractor *)

Section Text.

Implicit Types (a : ascii) (s t e : string).

Lemma lower_char_idem a : lower_char (lower_char a) = lower_char a.
Proof. destruct a as [[] [] [] [] [] [] [] []]; reflexivity. Qed.

Lemma lower_idem s : lower (lower s) = lower s.
Proof.
  induction s as [| a s IH]; simpl; [reflexivity |].
  by rewrite lower_char_idem, IH.
Qed.

Lemma lower_app s e : lower (s ++ e) = (lower s ++ lower e)%string.
Proof. induction s as [| a s IH]; simpl; [reflexivity |]. by rewrite IH. Qed.

Lemma length_lower s : String.length (lower s) = String.length s.
Proof. induction s as [| a s IH]; simpl; [reflexivity |]. by rewrite IH. Qed.

Lemma slice_to_app (n : nat) s e :
  (n <= String.length s)%nat -> slice_to n (s ++ e) = slice_to n s.
Proof.
  unfold slice_to. revert n; induction s as [| a s IH]; intros n Hn.
  - simpl in Hn. assert (n = 0%nat) as -> by lia. by destruct e.
  - destruct n as [| n]; simpl; [reflexivity |].
    rewrite IH; [reflexivity | simpl in Hn; lia].
Qed.

Lemma title_loop_digit_entries t :
  any_match word_patterns t = false ->
  title_loop number_patterns t 1 = Some 1.
Proof.
  intros Hw.
  change number_patterns
    with (take 3 number_patterns ++ word_patterns).
  cbn [take number_patterns app title_loop].
  do 3 match goal with
       | |- context [search ?p t] => destruct (search p t); [reflexivity |]
       end.
  exact (title_loop_no_match word_patterns t 1 Hw).
Qed.

End Text.

(** X1: the extractor never raises and its result is one of 1, ..., 6,
    whatever the title and the body are; the cap at 10 never takes
    effect. *)
Theorem extract_position_count_1_to_6 (jp_title jp_full_text : string) :
  exists n : Z,
    extract_position_count jp_title jp_full_text = Some n /\ 1 <= n <= 6.
Proof.
  unfold extract_position_count.
  destruct (title_loop_int_valued number_patterns (lower jp_title) 1
              number_patterns_int_valued) as (n & -> & Hn).
  pose proof (text_loop_int_valued text_patterns
                (slice_to 1000 (lower jp_full_text)) 1
                text_patterns_int_valued) as Hb.
  cbn [mbind option_bind].
  destruct (Z.eqb_spec n 1) as [-> | Hne]; eexists; (split; [reflexivity |]);
    lia.
Qed.

(** X2: the result does not depend on the case of the letters of the
    title and of the body. *)
Theorem extract_position_count_case_blind (jp_title jp_full_text : string) :
  extract_position_count (lower jp_title) (lower jp_full_text)
  = extract_position_count jp_title jp_full_text.
Proof. unfold extract_position_count. by rewrite !lower_idem. Qed.

(** X3: the body is read up to its 1000th character only: text appended
    to a body of 1000 characters or more never changes the result. *)
Theorem extract_position_count_body_prefix
    (jp_title body more : string) :
  (1000 <= String.length body)%nat ->
  extract_position_count jp_title (body ++ more)
  = extract_position_count jp_title body.
Proof.
  intros Hlen. unfold extract_position_count.
  rewrite lower_app, slice_to_app; [reflexivity |].
  by rewrite length_lower.
Qed.

Lemma extract_position_count_body_prefix_witness :
  extract_position_count "Lecturer" (blanks_1000 ++ "we are two")
  = extract_position_count "Lecturer" blanks_1000.
Proof.
  apply extract_position_count_body_prefix. vm_compute. lia.
Defined.

(** X4: digits in the title have no effect: when none of the word
    patterns (two ... six, several, multiple) matches the title, the
    result is the one of an empty title, decided by the body alone. *)
Theorem extract_position_count_title_digits_inert
    (jp_title jp_full_text : string) :
  any_match word_patterns (lower jp_title) = false ->
  extract_position_count jp_title jp_full_text
  = extract_position_count "" jp_full_text.
Proof.
  intros Hw. unfold extract_position_count.
  rewrite (title_loop_digit_entries _ Hw).
  change (lower "") with ""%string.
  rewrite (title_loop_digit_entries "" eq_refl). reflexivity.
Qed.

Lemma extract_position_count_title_digits_inert_witness :
  extract_position_count "(4 positions)" "We are two departments"
  = extract_position_count "" "We are two departments".
Proof.
  apply extract_position_count_title_digits_inert. vm_compute. reflexivity.
Defined.



(** ** The aggregator *)

Section MoreSeries.

Implicit Types (df l : list row) (r : row) (w y t : Z) (vs : list Z).

Lemma filter_ext_in {A} (P Q : A -> Prop)
    `{!forall x, Decision (P x), !forall x, Decision (Q x)} (l : list A) :
  (forall x, x ∈ l -> P x <-> Q x) -> filter P l = filter Q l.
Proof.
  induction l as [| a l IH]; intros Hpq; [reflexivity |].
  rewrite !filter_cons, IH by (intros x Hx; apply Hpq; by right).
  pose proof (Hpq a ltac:(left)) as Ha.
  destruct (decide (P a)), (decide (Q a)); tauto || reflexivity.
Qed.

Lemma sum_with_perm {A} (f : A -> Z) (l1 l2 : list A) :
  l1 ≡ₚ l2 -> sum_with f l1 = sum_with f l2.
Proof. induction 1; simpl; lia. Qed.

Lemma running_app t vs1 vs2 :
  running t (vs1 ++ vs2)
  = running t vs1 ++ running (t + sum_with id vs1) vs2.
Proof.
  revert t; induction vs1 as [| v vs1 IH]; intros t; simpl.
  - f_equal; lia.
  - rewrite IH. unfold id. do 3 f_equal. lia.
Qed.

Lemma running_lookup t vs (i : nat) :
  (i < length vs)%nat ->
  running t vs !! i = Some (t + sum_with id (take (S i) vs)).
Proof.
  revert t i; induction vs as [| v vs IH]; intros t i Hi; simpl in Hi;
    [lia |].
  destruct i as [| i].
  - simpl. unfold id. f_equal; lia.
  - change (running t (v :: vs) !! S i) with (running (t + v) vs !! i).
    rewrite IH by lia.
    change (take (S (S i)) (v :: vs)) with (v :: take (S i) vs).
    simpl. unfold id. f_equal; lia.
Qed.

(** Adding up the week totals over a duplicate-free list of weeks adds up
    the rows whose week is in the list. *)
Lemma sum_week_total_weeks l (ws : list Z) :
  NoDup ws ->
  sum_with (week_total l) ws
  = sum_with position_count (filter (fun r => iso_week r ∈ ws) l).
Proof.
  intros Hnd. induction l as [| r l IH].
  - unfold week_total. simpl. apply sum_with_zero.
  - rewrite (sum_with_ext _ _ _ (fun w _ => week_total_cons r l w)).
    rewrite sum_with_add, IH, sum_with_indicator by assumption.
    rewrite filter_cons.
    destruct (decide (iso_week r ∈ ws)); simpl; lia.
Qed.

Lemma take_week_range (i : nat) :
  (i < 28)%nat -> take (S i) week_range = seqZ 30 (Z.of_nat (S i)).
Proof.
  intros Hi. unfold week_range.
  replace 28 with (Z.of_nat (S i) + (28 - Z.of_nat (S i))) by lia.
  rewrite seqZ_app by lia.
  apply take_app_length'. rewrite length_seqZ. lia.
Qed.

Lemma year_series_cumulative_lookup df y (i : nat) :
  (i < 28)%nat ->
  cumulative (year_series df y) !! i
  = Some (sum_with position_count
            (rows_in_weeks 30 (30 + Z.of_nat i) (rows_of_year df y))).
Proof.
  intros Hi. rewrite year_series_spec. cbn [cumulative].
  rewrite running_lookup by (rewrite length_fmap; exact Hi).
  rewrite <- fmap_take, sum_with_fmap, take_week_range by exact Hi.
  rewrite sum_week_total_weeks by apply NoDup_seqZ.
  f_equal. rewrite Z.add_0_l. f_equal. unfold rows_in_weeks.
  apply list_filter_iff. intros r. rewrite elem_of_seqZ. lia.
Qed.

Lemma week_total_perm l1 l2 w :
  l1 ≡ₚ l2 -> week_total l1 w = week_total l2 w.
Proof. intros H. unfold week_total. apply sum_with_perm. by rewrite H. Qed.

Lemma week_total_app l1 l2 w :
  week_total (l1 ++ l2) w = week_total l1 w + week_total l2 w.
Proof. unfold week_total. by rewrite filter_app, sum_with_app. Qed.

Lemma running_add (f g : Z -> Z) (ws : list Z) t1 t2 :
  running (t1 + t2) ((fun w => f w + g w) <$> ws)
  = zip_with Z.add (running t1 (f <$> ws)) (running t2 (g <$> ws)).
Proof.
  revert t1 t2; induction ws as [| w ws IH]; intros t1 t2; [reflexivity |].
  rewrite !fmap_cons. cbn [running zip_with].
  replace (t1 + t2 + (f w + g w)) with ((t1 + f w) + (t2 + g w)) by lia.
  by rewrite IH.
Qed.

Lemma year_series_monotone df y (i : nat) (a b : Z) :
  Forall (fun r => 0 <= position_count r) df ->
  cumulative (year_series df y) !! i = Some a ->
  cumulative (year_series df y) !! S i = Some b ->
  a <= b.
Proof.
  intros Hpos. rewrite year_series_spec. cbn [cumulative]. intros Ha Hb.
  destruct (running_lookup_S _ _ _ _ _ Ha Hb) as (v & Hv & ->).
  apply list_elem_of_fmap in Hv as (w & -> & _).
  pose proof (week_total_nonneg (rows_of_year df y) w
                (rows_of_year_nonneg df y Hpos)).
  lia.
Qed.

End MoreSeries.

(** X6: entry [i] of [cumulative] is the sum of [position_count] over the
    rows of the year whose ISO week lies between 30 and 30 + i. *)
Theorem cumulative_entry (df : list row) (ac_year : Z) (ws : WeeklySeries)
    (i : nat) :
  create_weekly_cumulative df !! ac_year = Some ws ->
  (i < 28)%nat ->
  cumulative ws !! i
  = Some (sum_with position_count
            (rows_in_weeks 30 (30 + Z.of_nat i) (rows_of_year df ac_year))).
Proof.
  intros [_ ->]%create_weekly_cumulative_lookup Hi.
  by apply year_series_cumulative_lookup.
Qed.

Lemma cumulative_entry_witness :
  cumulative sample_series !! 8%nat
  = Some (sum_with position_count
            (rows_in_weeks 30 38 (rows_of_year sample_rows 2024))).
Proof.
  apply (cumulative_entry sample_rows 2024 sample_series 8).
  - vm_compute. reflexivity.
  - lia.
Defined.

(** X7: the mapping has an entry for a year exactly when some row of the
    frame belongs to that year. *)
Theorem create_weekly_cumulative_keys (df : list row) (ac_year : Z) :
  is_Some (create_weekly_cumulative df !! ac_year)
  <-> exists r : row, r ∈ df /\ academic_year r = ac_year.
Proof.
  split.
  - intros [ws [Hr _]%create_weekly_cumulative_lookup]. exact Hr.
  - intros Hr. exists (year_series df ac_year).
    apply create_weekly_cumulative_lookup. auto.
Qed.

(** X8: the result does not depend on the order of the rows. *)
Theorem create_weekly_cumulative_perm (df1 df2 : list row) :
  df1 ≡ₚ df2 ->
  create_weekly_cumulative df1 = create_weekly_cumulative df2.
Proof.
  intros Hperm. apply map_eq. intros y. apply option_eq. intros ws.
  rewrite !create_weekly_cumulative_lookup.
  assert (Hrows : rows_of_year df1 y ≡ₚ rows_of_year df2 y)
    by (unfold rows_of_year; by rewrite Hperm).
  assert (Hser : year_series df1 y = year_series df2 y).
  { rewrite !year_series_spec. f_equal.
    - f_equal. apply list_fmap_ext. intros _ w _. by apply week_total_perm.
    - apply sum_with_ext. intros w _. by apply week_total_perm.
    - by rewrite Hrows. }
  rewrite Hser. setoid_rewrite Hperm. reflexivity.
Qed.

Lemma create_weekly_cumulative_perm_witness :
  create_weekly_cumulative (reverse sample_rows)
  = create_weekly_cumulative sample_rows.
Proof.
  apply create_weekly_cumulative_perm. apply reverse_Permutation.
Defined.

(** X9: aggregating the rows of one year alone gives a mapping whose only
    possible key is that year, with the series the whole frame gives. *)
Theorem create_weekly_cumulative_one_year (df : list row) (y y' : Z) :
  create_weekly_cumulative (rows_of_year df y) !! y'
  = if decide (y' = y) then create_weekly_cumulative df !! y else None.
Proof.
  assert (Hidem : rows_of_year (rows_of_year df y) y = rows_of_year df y).
  { unfold rows_of_year. rewrite list_filter_filter.
    apply list_filter_iff. tauto. }
  assert (Hser : year_series (rows_of_year df y) y = year_series df y)
    by (rewrite !year_series_spec, Hidem; reflexivity).
  apply option_eq. intros ws. destruct (decide (y' = y)) as [-> | Hne].
  - rewrite !create_weekly_cumulative_lookup, Hser. clear Hser Hidem.
    split; intros [(r & Hr & Hy) ->]; (split; [| reflexivity]);
      exists r; (split; [| exact Hy]).
    + unfold rows_of_year in Hr.
      apply list_elem_of_filter in Hr as [_ Hr]. exact Hr.
    + unfold rows_of_year. apply list_elem_of_filter. split; assumption.
  - clear Hser Hidem. split; [| discriminate].
    intros [(r & Hr & Hy') _]%create_weekly_cumulative_lookup.
    unfold rows_of_year in Hr. apply list_elem_of_filter in Hr as [Hy _].
    congruence.
Qed.

(** X10: the series of two frames put together is the entry-wise sum of
    their series: totals, posting counts and cumulative values add. *)
Theorem year_series_app (df1 df2 : list row) (ac_year : Z) :
  year_series (df1 ++ df2) ac_year
  = {| weeks := week_range;
       cumulative :=
         zip_with Z.add (cumulative (year_series df1 ac_year))
                        (cumulative (year_series df2 ac_year));
       total := total (year_series df1 ac_year)
                + total (year_series df2 ac_year);
       postings := postings (year_series df1 ac_year)
                   + postings (year_series df2 ac_year) |}.
Proof.
  rewrite !year_series_spec. cbn [cumulative total postings].
  unfold rows_of_year. rewrite filter_app. f_equal.
  - rewrite <- (running_add _ _ week_range 0 0). f_equal.
    apply list_fmap_ext. intros _ w _. apply week_total_app.
  - rewrite <- sum_with_add. apply sum_with_ext. intros w _.
    apply week_total_app.
  - rewrite length_app. lia.
Qed.

(** X11: a row whose date is missing or is not a calendar date leaves no
    trace: wherever it stands in the frame, the analysed frame is the one
    obtained without it. *)
Theorem analyze_date_fields_skips (isocalendar : date -> Z * Z * Z)
    (df1 df2 : list posting) (p : posting) :
  to_datetime_coerce (p_Date_Active p) = None ->
  analyze_date_fields isocalendar (df1 ++ p :: df2)
  = analyze_date_fields isocalendar (df1 ++ df2).
Proof.
  intros Hbad. unfold analyze_date_fields.
  rewrite !omap_app. f_equal. cbn [omap list_omap].
  unfold analyze_row at 1. rewrite Hbad. reflexivity.
Qed.

Lemma analyze_date_fields_skips_witness :
  analyze_date_fields iso_calendar
    ([Posting (Some (Date 2024 9 15)) 1]
       ++ Posting (Some (Date 2025 2 30)) 5
       :: [Posting (Some (Date 2024 9 20)) 3])
  = analyze_date_fields iso_calendar
      ([Posting (Some (Date 2024 9 15)) 1]
         ++ [Posting (Some (Date 2024 9 20)) 3]).
Proof. apply analyze_date_fields_skips. reflexivity. Defined.

(** X12: when no row has an ISO week above 53, as with weeks taken from
    the ISO calendar, the entries for weeks 53 to 57 all equal [total]:
    the curve is flat over the last weeks of the window. *)
Theorem cumulative_flat_after_53 (df : list row) (ac_year : Z)
    (ws : WeeklySeries) (i : nat) :
  Forall (fun r => iso_week r <= 53) df ->
  create_weekly_cumulative df !! ac_year = Some ws ->
  (23 <= i < 28)%nat ->
  cumulative ws !! i = Some (total ws).
Proof.
  intros Hiso [_ ->]%create_weekly_cumulative_lookup Hi.
  rewrite year_series_cumulative_lookup by lia.
  rewrite year_series_spec. cbn [total]. rewrite sum_week_total_window.
  do 2 f_equal. unfold rows_in_weeks, in_window.
  apply filter_ext_in. intros r Hr.
  assert (iso_week r <= 53).
  { rewrite Forall_forall in Hiso. apply Hiso.
    unfold rows_of_year in Hr. by apply list_elem_of_filter in Hr as [_ Hr]. }
  lia.
Qed.

Lemma cumulative_flat_after_53_witness :
  cumulative sample_series !! 23%nat = Some (total sample_series).
Proof.
  apply (cumulative_flat_after_53 sample_rows 2024 sample_series 23).
  - repeat constructor; vm_compute; discriminate.
  - vm_compute. reflexivity.
  - lia.
Defined.

(** ** Truncation and the plotted traces *)

Section MoreTruncation.

Implicit Types (ws cs : list Z) (i j n : nat).

Lemma range_down_S n : (1 <= n)%nat -> range_down (S n) = n :: range_down n.
Proof.
  intros Hn. unfold range_down.
  destruct n as [| k]; [lia |].
  replace (S (S k) - 1)%nat with (S k) by lia.
  replace (S k - 1)%nat with k by lia.
  rewrite seq_S, reverse_app. reflexivity.
Qed.

Lemma lookup_at_index cs i :
  (i < length cs)%nat -> cs !! i = Some (at_index cs i).
Proof.
  intros Hi. unfold at_index.
  destruct (lookup_lt_is_Some_2 cs i Hi) as [c ->]. reflexivity.
Qed.

(** The two outcomes of the backward scan over all indices. *)
Lemma truncate_scan_range ws cs n :
  (truncate_scan ws cs (range_down n) = (ws, cs)
   /\ forall j, (1 <= j < n)%nat -> at_index cs j <= at_index cs (j - 1))
  \/ exists i,
       (1 <= i < n)%nat
       /\ at_index cs (i - 1) < at_index cs i
       /\ (forall j, (i < j < n)%nat -> at_index cs j <= at_index cs (j - 1))
       /\ truncate_scan ws cs (range_down n)
          = (take (i + 1) ws, take (i + 1) cs).
Proof.
  induction n as [| n IH].
  - left. split; [reflexivity | intros; lia].
  - destruct (decide (n = 0%nat)) as [-> | Hn].
    { left. split; [reflexivity | intros; lia]. }
    rewrite range_down_S by lia. cbn [truncate_scan].
    destruct (Z.ltb_spec (at_index cs (n - 1)) (at_index cs n)) as [Hlt | Hge].
    + right. exists n. repeat split; try lia; try assumption.
    + destruct IH as [[Heq Hflat] | (i & Hi & Hinc & Hflat & Heq)].
      * left. split; [exact Heq |]. intros j Hj.
        destruct (decide (j = n)) as [-> | ?]; [lia | apply Hflat; lia].
      * right. exists i. split; [lia |]. split; [exact Hinc |].
        split; [| exact Heq]. intros j Hj.
        destruct (decide (j = n)) as [-> | ?]; [lia | apply Hflat; lia].
Qed.

(** Over a stretch without strict increase, a non-decreasing list is
    constant. *)
Lemma at_index_constant cs i n (k : nat) :
  (forall j, (1 <= j < n)%nat -> at_index cs (j - 1) <= at_index cs j) ->
  (forall j, (i < j < n)%nat -> at_index cs j <= at_index cs (j - 1)) ->
  (1 <= i)%nat -> (i + k < n)%nat ->
  at_index cs (i + k) = at_index cs i.
Proof.
  intros Hmono Hflat Hi. induction k as [| k IH]; intros Hk.
  - f_equal. lia.
  - specialize (IH ltac:(lia)).
    pose proof (Hmono (i + S k)%nat ltac:(lia)) as H1.
    pose proof (Hflat (i + S k)%nat ltac:(lia)) as H2.
    replace (i + S k - 1)%nat with (i + k)%nat in * by lia. lia.
Qed.

Lemma truncate_scan_last ws cs :
  (forall j, (1 <= j < length cs)%nat ->
             at_index cs (j - 1) <= at_index cs j) ->
  last (truncate_scan ws cs (range_down (length cs))).2 = last cs.
Proof.
  intros Hmono.
  destruct (truncate_scan_range ws cs (length cs))
    as [[-> _] | (i & Hi & _ & Hflat & ->)]; [reflexivity |].
  cbn [snd]. rewrite !last_lookup, length_take.
  replace (Init.Nat.pred (min (i + 1) (length cs))) with i by lia.
  rewrite lookup_take_lt by lia.
  rewrite !lookup_at_index by lia. f_equal.
  pose proof (at_index_constant cs i (length cs) (length cs - 1 - i)
                Hmono Hflat ltac:(lia) ltac:(lia)) as Hc.
  replace (i + (length cs - 1 - i))%nat
    with (Init.Nat.pred (length cs)) in Hc by lia.
  congruence.
Qed.

Lemma year_series_at_index_mono (df : list row) (y : Z) j :
  Forall (fun r => 0 <= position_count r) df ->
  (1 <= j < length (cumulative (year_series df y)))%nat ->
  at_index (cumulative (year_series df y)) (j - 1)
  <= at_index (cumulative (year_series df y)) j.
Proof.
  intros Hpos Hj.
  apply (year_series_monotone df y (j - 1)); [exact Hpos | |].
  - apply lookup_at_index. lia.
  - replace (S (j - 1)) with j by lia. apply lookup_at_index. lia.
Qed.

Lemma section_entry_last (y : Z) (s : WeeklySeries) :
  (forall j, (1 <= j < length (cumulative s))%nat ->
             at_index (cumulative s) (j - 1) <= at_index (cumulative s) j) ->
  last (cumulative s) = Some (total s) ->
  last (cumulative (section_entry y s)) = Some (total s)
  /\ last (truncate_nonempty (weeks s) (cumulative s)).2 = Some (total s)
  /\ total (section_entry y s) = total s
  /\ postings (section_entry y s) = postings s.
Proof.
  destruct s as [w c t p]. cbn [weeks cumulative total postings].
  intros Hmono Hlast.
  pose proof (truncate_scan_last w c Hmono) as Hscan.
  assert (Hcur : forall y', last (truncate_current y' w c).2 = Some t).
  { intros y'. unfold truncate_current.
    destruct ((y' =? 2025) && (0 <? length w)%nat); [| exact Hlast].
    rewrite Hscan. exact Hlast. }
  unfold section_entry. cbn [weeks cumulative total postings].
  pose proof (Hcur y) as Hc.
  destruct (truncate_current y w c) as [w' c'].
  cbn [cumulative total postings snd] in *.
  split; [exact Hc |]. split; [| split; reflexivity].
  exact (Hcur 2025).
Qed.

End MoreTruncation.

(** X13: the truncation step only ever cuts a tail: for lists of equal
    length it returns the first [n] entries of both, for one [n], and it
    never returns empty lists for non-empty ones. *)
Theorem truncate_current_prefix (year : Z) (weeks cumulative : list Z) :
  length weeks = length cumulative ->
  exists n : nat,
    truncate_current year weeks cumulative
    = (take n weeks, take n cumulative)
    /\ (n <= length weeks)%nat
    /\ (0 < length weeks -> 0 < n)%nat.
Proof.
  intros Hlen. unfold truncate_current.
  assert (Hsame : exists n : nat,
             (weeks, cumulative) = (take n weeks, take n cumulative)
             /\ (n <= length weeks)%nat /\ (0 < length weeks -> 0 < n)%nat).
  { exists (length weeks). rewrite take_ge by lia.
    rewrite take_ge by lia. auto. }
  destruct ((year =? 2025) && (0 <? length weeks)%nat); [| exact Hsame].
  destruct (truncate_scan_range weeks cumulative (length cumulative))
    as [[-> _] | (i & Hi & _ & _ & ->)]; [exact Hsame |].
  exists (i + 1)%nat. split; [reflexivity | lia].
Qed.

Lemma truncate_current_prefix_witness :
  exists n : nat,
    truncate_current 2025 [30; 31; 32; 33; 34] [0; 1; 1; 4; 4]
    = (take n [30; 31; 32; 33; 34], take n [0; 1; 1; 4; 4])
    /\ (n <= 5)%nat /\ (0 < 5 -> 0 < n)%nat.
Proof.
  apply (truncate_current_prefix 2025 [30; 31; 32; 33; 34] [0; 1; 1; 4; 4]).
  reflexivity.
Defined.

(** X14: truncating twice is truncating once. *)
Theorem truncate_current_idempotent (year : Z) (weeks cumulative : list Z) :
  truncate_current year (truncate_current year weeks cumulative).1
                        (truncate_current year weeks cumulative).2
  = truncate_current year weeks cumulative.
Proof.
  destruct ((year =? 2025) && (0 <? length weeks)%nat) eqn:Hguard.
  2: { assert (Hr : truncate_current year weeks cumulative
                    = (weeks, cumulative))
         by (unfold truncate_current; rewrite Hguard; reflexivity).
       rewrite Hr. cbn [fst snd]. exact Hr. }
  assert (Hr : truncate_current year weeks cumulative
               = truncate_scan weeks cumulative
                   (range_down (length cumulative)))
    by (unfold truncate_current; rewrite Hguard; reflexivity).
  apply andb_prop in Hguard as [Hy Hw]. apply Nat.ltb_lt in Hw.
  rewrite Hr.
  destruct (truncate_scan_range weeks cumulative (length cumulative))
    as [[Heq _] | (i & Hi & Hinc & _ & Heq)]; rewrite Heq; cbn [fst snd].
  - rewrite Hr. exact Heq.
  - unfold truncate_current. rewrite Hy.
    replace (0 <? length (take (i + 1) weeks))%nat with true
      by (symmetry; apply Nat.ltb_lt; rewrite length_take; lia).
    cbn [andb]. rewrite length_take.
    replace (min (i + 1) (length cumulative)) with (S i) by lia.
    rewrite range_down_S by lia. cbn [truncate_scan].
    assert (Hinc' : at_index (take (i + 1) cumulative) (i - 1)
                    < at_index (take (i + 1) cumulative) i).
    { unfold at_index in *. rewrite !lookup_take_lt by lia. exact Hinc. }
    apply Z.ltb_lt in Hinc'. rewrite Hinc'.
    rewrite !take_take.
    replace (min (i + 1) (i + 1)) with (i + 1)%nat by lia. reflexivity.
Qed.

(** X15: on a series of the aggregator, for rows with non-negative
    [position_count], the truncated [cumulative] still ends with [total],
    in the year-2025 step and in the unconditional step of the other
    sections alike; [total] and [postings] are passed on unchanged. *)
Theorem truncation_keeps_total (df : list row) (ac_year : Z)
    (ws : WeeklySeries) :
  Forall (fun r => 0 <= position_count r) df ->
  create_weekly_cumulative df !! ac_year = Some ws ->
  last (cumulative (section_entry ac_year ws)) = Some (total ws)
  /\ last (truncate_nonempty (weeks ws) (cumulative ws)).2 = Some (total ws)
  /\ total (section_entry ac_year ws) = total ws
  /\ postings (section_entry ac_year ws) = postings ws.
Proof.
  intros Hpos [_ ->]%create_weekly_cumulative_lookup.
  apply section_entry_last.
  - intros j. by apply year_series_at_index_mono.
  - apply last_year_series.
Qed.

Lemma truncation_keeps_total_witness :
  last (cumulative (section_entry 2025 autumn_series)) = Some 4
  /\ length (cumulative (section_entry 2025 autumn_series)) = 9%nat.
Proof.
  split; [| vm_compute; reflexivity].
  refine (proj1 (truncation_keeps_total autumn_rows 2025 autumn_series _ _)).
  - repeat constructor; vm_compute; discriminate.
  - vm_compute. reflexivity.
Defined.

Section Traces.

Implicit Types (df l : list row) (r : row) (w y cw : Z) (n i : nat).

Lemma rows_of_year_nonempty df y :
  rows_of_year df y <> [] -> exists r, r ∈ df /\ academic_year r = y.
Proof.
  destruct (rows_of_year df y) as [| r l] eqn:Hrows; [done |]. intros _.
  assert (Hr : r ∈ rows_of_year df y) by (rewrite Hrows; left).
  unfold rows_of_year in Hr. apply list_elem_of_filter in Hr as [Hy Hr].
  eauto.
Qed.

Lemma length_year_series_cumulative df y :
  length (cumulative (year_series df y)) = 28%nat.
Proof.
  rewrite year_series_spec. cbn [cumulative].
  by rewrite length_running, length_fmap.
Qed.

(** The running totals over weeks 30..53 are the first 24 of those over
    weeks 30..57. *)
Lemma running_24 (f : Z -> Z) :
  running 0 (f <$> seqZ 30 24) = take 24 (running 0 (f <$> week_range)).
Proof.
  unfold week_range. replace 28 with (24 + 4) by lia.
  rewrite seqZ_app, fmap_app, running_app by lia.
  symmetry. apply take_app_length'.
  by rewrite length_running, length_fmap, length_seqZ.
Qed.

Lemma main_plot_trace_spec (today : date) df y :
  main_plot_trace today df y
  = if (length (rows_of_year df y) =? 0)%nat then None
    else if (y =? year today - 1)
            || ((y =? year today) && (month today <? 8))
    then
      let k := Z.min ((iso_calendar today).1.2 - 30 + 1) 24 in
      if 0 <? k
      then Some (take (Z.to_nat k) (seqZ 30 24),
                 take (Z.to_nat k) (take 24 (cumulative (year_series df y))))
      else None
    else Some (seqZ 30 24, take 24 (cumulative (year_series df y))).
Proof.
  unfold main_plot_trace. rewrite week_loop_spec, year_series_spec.
  cbn [app cumulative]. rewrite <- running_24, length_seqZ.
  rewrite (list_fmap_ext _ (week_total (rows_of_year df y)) (seqZ 30 24))
    by (intros ? w _; apply groupby_week_sum_lookup).
  reflexivity.
Qed.

Lemma seqZ_30_24 : seqZ 30 24 = take 24 week_range.
Proof. reflexivity. Qed.

Lemma sum_split_before_window l cw :
  30 <= cw ->
  sum_with position_count (filter (fun r => iso_week r <= cw) l)
  = sum_with position_count (filter (fun r => iso_week r < 30) l)
    + sum_with position_count (rows_in_weeks 30 cw l).
Proof.
  intros Hcw. unfold rows_in_weeks.
  induction l as [| r l IH]; [reflexivity |].
  rewrite !filter_cons.
  destruct (decide (iso_week r <= cw)), (decide (iso_week r < 30)),
    (decide (30 <= iso_week r <= cw)); simpl; lia.
Qed.

Lemma max_iso_week_bound l w :
  max_iso_week l = Some w -> Forall (fun r => iso_week r <= w) l.
Proof.
  revert w; induction l as [| r l IH]; intros w; [constructor |].
  simpl. destruct (max_iso_week l) as [m |] eqn:Hm; intros [= <-].
  - constructor; [lia |].
    eapply Forall_impl; [apply IH; reflexivity |]. simpl. intros; lia.
  - destruct l; [constructor; [lia | constructor] | discriminate].
Qed.

Lemma interactive_trace_spec df y :
  interactive_trace df y
  = if y <? 2019 then None
    else if y =? 2025 then
      match max_iso_week (rows_of_year df y) with
      | Some w =>
          let k := Z.min (w - 30 + 1) 28 in
          Some (py_slice_to k week_range,
                py_slice_to k (cumulative (year_series df y)))
      | None => Some (week_range, cumulative (year_series df y))
      end
    else Some (week_range, cumulative (year_series df y)).
Proof.
  unfold interactive_trace. rewrite week_loop_spec, year_series_spec.
  cbn [app cumulative].
  rewrite (list_fmap_ext _ (week_total (rows_of_year df y)) week_range)
    by (intros ? w _; apply groupby_week_sum_lookup).
  reflexivity.
Qed.

Lemma sum_rows_in_weeks_empty l lo hi w :
  Forall (fun r => iso_week r <= w) l -> w < lo ->
  sum_with position_count (rows_in_weeks lo hi l) = 0.
Proof.
  intros Hl Hw. unfold rows_in_weeks.
  induction Hl as [| r l Hr _ IH]; [reflexivity |].
  rewrite filter_cons. destruct (decide (lo <= iso_week r <= hi)); [lia |].
  exact IH.
Qed.

End Traces.

(** X16: the figure's curve for 2025 stops at week 37: it keeps the eight
    entries for weeks 30..37 and ends on the number of openings of the
    year's rows dated in those weeks. *)
Theorem aea_plot_entry_2025 (df : list row) (ws : WeeklySeries) :
  create_weekly_cumulative df !! 2025 = Some ws ->
  aea_plot_entry 2025 ws
  = Some ([30; 31; 32; 33; 34; 35; 36; 37], take 8 (cumulative ws))
  /\ last (take 8 (cumulative ws))
     = Some (sum_with position_count
               (rows_in_weeks 30 37 (rows_of_year df 2025))).
Proof.
  intros [_ ->]%create_weekly_cumulative_lookup. split.
  - rewrite year_series_spec. reflexivity.
  - rewrite last_lookup, length_take, length_year_series_cumulative.
    change (Init.Nat.pred (8 `min` 28)) with 7%nat.
    rewrite lookup_take_lt by lia.
    apply (year_series_cumulative_lookup df 2025 7). lia.
Qed.

Lemma aea_plot_entry_2025_witness :
  aea_plot_entry 2025 summer_series
  = Some ([30; 31; 32; 33; 34; 35; 36; 37], [0; 0; 0; 0; 2; 2; 2; 2])
  /\ last (take 8 (cumulative summer_series))
     = Some (sum_with position_count
               (rows_in_weeks 30 37 (rows_of_year summer_rows 2025))).
Proof.
  apply (aea_plot_entry_2025 summer_rows summer_series).
  vm_compute. reflexivity.
Defined.

(** X17: a trace of the dashboard's main plot is an initial segment of
    the aggregator's series of that year: its weeks are the first [n]
    weeks from 30 on and its values the first [n] cumulative values, for
    some [n] between 1 and 24. *)
Theorem main_plot_trace_prefix (today : date) (df : list row)
    (ac_year : Z) (weeks' cumulative' : list Z) :
  main_plot_trace today df ac_year = Some (weeks', cumulative') ->
  exists (n : nat) (ws : WeeklySeries),
    create_weekly_cumulative df !! ac_year = Some ws
    /\ (1 <= n <= 24)%nat
    /\ weeks' = take n (weeks ws)
    /\ cumulative' = take n (cumulative ws).
Proof.
  rewrite main_plot_trace_spec.
  destruct (Nat.eqb_spec (length (rows_of_year df ac_year)) 0)
    as [| Hrows]; [discriminate |].
  assert (Hentry : create_weekly_cumulative df !! ac_year
                   = Some (year_series df ac_year)).
  { apply create_weekly_cumulative_lookup. split; [| reflexivity].
    apply rows_of_year_nonempty. intros Hnil. by rewrite Hnil in Hrows. }
  assert (Hweeks : weeks (year_series df ac_year) = week_range)
    by (rewrite year_series_spec; reflexivity).
  destruct ((ac_year =? year today - 1)
            || ((ac_year =? year today) && (month today <? 8))).
  - cbv zeta.
    destruct (Z.ltb_spec 0 (Z.min ((iso_calendar today).1.2 - 30 + 1) 24))
      as [Hk |]; [| discriminate].
    intros H%(inj Some). apply pair_equal_spec in H as [<- <-].
    exists (Z.to_nat (Z.min ((iso_calendar today).1.2 - 30 + 1) 24)),
      (year_series df ac_year).
    split; [exact Hentry |]. split; [lia |].
    rewrite Hweeks, seqZ_30_24, !take_take.
    replace (Z.to_nat (Z.min ((iso_calendar today).1.2 - 30 + 1) 24)
               `min` 24)%nat
      with (Z.to_nat (Z.min ((iso_calendar today).1.2 - 30 + 1) 24)) by lia.
    split; reflexivity.
  - intros H%(inj Some). apply pair_equal_spec in H as [<- <-]. exists 24%nat, (year_series df ac_year).
    split; [exact Hentry |]. split; [lia |].
    rewrite Hweeks. split; reflexivity.
Qed.

Lemma main_plot_trace_prefix_witness :
  exists (n : nat) (ws : WeeklySeries),
    create_weekly_cumulative autumn_rows !! 2025 = Some ws
    /\ (1 <= n <= 24)%nat
    /\ seqZ 30 16 = take n (weeks ws)
    /\ [0; 0; 0; 0; 0; 0; 0; 0; 4; 4; 4; 4; 4; 4; 4; 4]
       = take n (cumulative ws).
Proof.
  apply (main_plot_trace_prefix (Date 2026 11 3) autumn_rows 2025).
  vm_compute. reflexivity.
Defined.

(** X18: a year that has rows and is treated as the current one is left
    out of the main plot exactly while today's ISO week is below 30. *)
Theorem main_plot_trace_hidden (today : date) (df : list row)
    (ac_year : Z) :
  rows_of_year df ac_year <> [] ->
  ac_year = year today - 1 \/ (ac_year = year today /\ month today < 8) ->
  main_plot_trace today df ac_year = None
  <-> (iso_calendar today).1.2 < 30.
Proof.
  intros Hrows Hcur. rewrite main_plot_trace_spec.
  destruct (Nat.eqb_spec (length (rows_of_year df ac_year)) 0) as [H0 |].
  { destruct (rows_of_year df ac_year); [done | discriminate]. }
  replace ((ac_year =? year today - 1)
           || ((ac_year =? year today) && (month today <? 8)))
    with true by (symmetry; lia).
  cbv zeta.
  destruct (Z.ltb_spec 0 (Z.min ((iso_calendar today).1.2 - 30 + 1) 24)).
  - split; [discriminate | lia].
  - split; [lia | reflexivity].
Qed.

Lemma main_plot_trace_hidden_witness :
  main_plot_trace (Date 2026 3 10) autumn_rows 2025 = None
  <-> (iso_calendar (Date 2026 3 10)).1.2 < 30.
Proof.
  apply main_plot_trace_hidden.
  - vm_compute. discriminate.
  - left. reflexivity.
Defined.

(** X19: the comparison chart counts more than the curve: for a current
    week inside the window, the bar of a year is the cumulative value of
    that week plus the openings of the year's rows dated before week
    30. *)
Theorem comparison_openings_vs_cumulative (df : list row)
    (current_week ac_year v : Z) :
  30 <= current_week <= 57 ->
  comparison_openings df current_week ac_year = Some v ->
  exists (ws : WeeklySeries) (c : Z),
    create_weekly_cumulative df !! ac_year = Some ws
    /\ cumulative ws !! Z.to_nat (current_week - 30) = Some c
    /\ v = c + sum_with position_count
                 (filter (fun r => iso_week r < 30)
                         (rows_of_year df ac_year)).
Proof.
  intros Hcw. unfold comparison_openings.
  assert (Hfilter :
    filter (fun r => academic_year r = ac_year /\ iso_week r <= current_week)
           df
    = filter (fun r => iso_week r <= current_week)
             (rows_of_year df ac_year)).
  { unfold rows_of_year. rewrite list_filter_filter.
    apply list_filter_iff. tauto. }
  rewrite Hfilter.
  destruct (Nat.ltb_spec 0
              (length (filter (fun r => iso_week r <= current_week)
                              (rows_of_year df ac_year))))
    as [Hlen |]; [| discriminate].
  intros <-%(inj Some).
  exists (year_series df ac_year),
    (sum_with position_count
       (rows_in_weeks 30 current_week (rows_of_year df ac_year))).
  split; [| split].
  - apply create_weekly_cumulative_lookup. split; [| reflexivity].
    apply rows_of_year_nonempty. intros Hnil.
    rewrite Hnil in Hlen. simpl in Hlen. lia.
  - rewrite year_series_cumulative_lookup by lia.
    do 3 f_equal. lia.
  - rewrite sum_split_before_window by lia. lia.
Qed.

Lemma comparison_openings_vs_cumulative_witness :
  exists (ws : WeeklySeries) (c : Z),
    create_weekly_cumulative autumn_rows !! 2025 = Some ws
    /\ cumulative ws !! Z.to_nat (38 - 30) = Some c
    /\ 6 = c + sum_with position_count
                 (filter (fun r => iso_week r < 30)
                         (rows_of_year autumn_rows 2025)).
Proof.
  apply (comparison_openings_vs_cumulative autumn_rows 38 2025 6).
  - lia.
  - vm_compute. reflexivity.
Defined.

Section Interactive.

Implicit Types (df : list row) (w : Z) (n : nat).

Lemma take_week_range_le n :
  (n <= 28)%nat -> take n week_range = seqZ 30 (Z.of_nat n).
Proof.
  destruct n as [| n]; [reflexivity |]. intros Hn.
  apply take_week_range. lia.
Qed.

Lemma py_slice_to_pos {A} (k : Z) (l : list A) :
  0 <= k -> py_slice_to k l = take (Z.to_nat k) l.
Proof.
  intros Hk. unfold py_slice_to.
  destruct (Z.leb_spec 0 k); [reflexivity | lia].
Qed.

Lemma py_slice_to_neg {A} (k : Z) (l : list A) :
  k < 0 -> py_slice_to k l = take (Z.to_nat (Z.of_nat (length l) + k)) l.
Proof.
  intros Hk. unfold py_slice_to.
  destruct (Z.leb_spec 0 k); [lia | reflexivity].
Qed.

Lemma total_year_series df y :
  total (year_series df y)
  = sum_with position_count (in_window (rows_of_year df y)).
Proof. rewrite year_series_spec. apply sum_week_total_window. Qed.

Lemma weeks_year_series df y : weeks (year_series df y) = week_range.
Proof. rewrite year_series_spec. reflexivity. Qed.

End Interactive.

(** X20: in the interactive plot the curve of 2025 is cut after the last
    week that has a row; when that week is 30 or later, the curve keeps
    the weeks 30 up to it (at most 57) and still ends on [total]. *)
Theorem interactive_trace_2025 (df : list row) (ws : WeeklySeries)
    (w : Z) :
  create_weekly_cumulative df !! 2025 = Some ws ->
  max_iso_week (rows_of_year df 2025) = Some w ->
  30 <= w ->
  exists n : nat,
    Z.of_nat n = Z.min (w - 29) 28
    /\ interactive_trace df 2025
       = Some (take n (weeks ws), take n (cumulative ws))
    /\ last (take n (cumulative ws)) = Some (total ws).
Proof.
  intros [_ ->]%create_weekly_cumulative_lookup Hmax Hw.
  exists (Z.to_nat (Z.min (w - 29) 28)). split; [lia |].
  pose proof (max_iso_week_bound _ _ Hmax) as Hbound. split.
  - rewrite interactive_trace_spec, Hmax, weeks_year_series.
    change (2025 <? 2019) with false. change (2025 =? 2025) with true.
    cbv iota zeta. replace (w - 30 + 1) with (w - 29) by lia.
    rewrite !py_slice_to_pos by lia. reflexivity.
  - rewrite last_lookup, length_take, length_year_series_cumulative.
    rewrite lookup_take_lt by lia.
    rewrite year_series_cumulative_lookup by lia.
    rewrite total_year_series. do 2 f_equal.
    unfold rows_in_weeks, in_window. apply filter_ext_in. intros r Hr.
    rewrite Forall_forall in Hbound. specialize (Hbound r Hr).
    simpl in Hbound. lia.
Qed.

Lemma interactive_trace_2025_witness :
  exists n : nat,
    Z.of_nat n = Z.min (38 - 29) 28
    /\ interactive_trace autumn_rows 2025
       = Some (take n week_range,
               take n (cumulative (year_series autumn_rows 2025)))
    /\ last (take n (cumulative (year_series autumn_rows 2025)))
       = Some (total (year_series autumn_rows 2025)).
Proof.
  apply (interactive_trace_2025 autumn_rows
           (year_series autumn_rows 2025) 38).
  - vm_compute. reflexivity.
  - vm_compute. reflexivity.
  - lia.
Defined.

(** X21: when every row of 2025 lies before the window, with last week
    [w] between 1 and 28, the negative slice bound keeps [w - 1] weeks:
    the interactive plot shows the weeks 30 .. 28 + w at value 0. *)
Theorem interactive_trace_2025_before_window (df : list row) (w : Z) :
  max_iso_week (rows_of_year df 2025) = Some w ->
  1 <= w <= 28 ->
  interactive_trace df 2025
  = Some (seqZ 30 (w - 1), replicate (Z.to_nat (w - 1)) 0).
Proof.
  intros Hmax Hw.
  pose proof (max_iso_week_bound _ _ Hmax) as Hbound.
  rewrite interactive_trace_spec, Hmax.
  change (2025 <? 2019) with false. change (2025 =? 2025) with true.
  cbv iota zeta.
  replace (Z.min (w - 30 + 1) 28) with (w - 29) by lia.
  rewrite !py_slice_to_neg by lia.
  rewrite length_year_series_cumulative.
  change (length week_range) with 28%nat.
  replace (Z.to_nat (Z.of_nat 28 + (w - 29))) with (Z.to_nat (w - 1)) by lia.
  rewrite take_week_range_le by lia.
  replace (Z.of_nat (Z.to_nat (w - 1))) with (w - 1) by lia.
  do 2 f_equal. apply list_eq. intros i.
  destruct (decide (i < Z.to_nat (w - 1))%nat) as [Hi | Hi].
  - rewrite lookup_take_lt by exact Hi.
    rewrite year_series_cumulative_lookup by lia.
    rewrite (sum_rows_in_weeks_empty _ _ _ w Hbound) by lia.
    symmetry. by apply lookup_replicate_2.
  - rewrite lookup_take_ge by lia.
    symmetry. apply lookup_replicate_None. lia.
Qed.

Lemma interactive_trace_2025_before_window_witness :
  interactive_trace spring_rows 2025
  = Some (seqZ 30 (10 - 1), replicate (Z.to_nat (10 - 1)) 0).
Proof.
  apply interactive_trace_2025_before_window.
  - vm_compute. reflexivity.
  - lia.
Defined.

(** ** The update of the current year *)

(** X22: the year refreshed by the update script is the academic year of
    the current date, except in July, when it is the year after: the
    script switches years in July, the frame in August. *)
Theorem update_target_year_vs_academic_year (current_date : date) :
  update_target_year current_date
  = academic_year_of current_date
    + (if month current_date =? 7 then 1 else 0).
Proof.
  unfold update_target_year, academic_year_of.
  destruct (Z.leb_spec 7 (month current_date)),
    (Z.leb_spec 8 (month current_date)),
    (Z.eqb_spec (month current_date) 7); lia.
Qed.

Section MergeFacts.

Context {V : Type}.
Implicit Types (existing new : gmap string (gmap string V))
  (k name : string).

(** What the loop leaves under each section name. *)
Lemma merge_current_year_lookup k existing new name :
  merge_current_year k existing new !! name
  = match new !! name with
    | None => existing !! name
    | Some data =>
        Some (match data !! k with
              | Some v => <[k := v]> (default ∅ (existing !! name))
              | None => default ∅ (existing !! name)
              end)
    end.
Proof.
  unfold merge_current_year. revert name.
  apply (map_fold_weak_ind
           (fun r (m : gmap string (gmap string V)) =>
              forall name,
                r !! name
                = match m !! name with
                  | None => existing !! name
                  | Some data =>
                      Some (match data !! k with
                            | Some v =>
                                <[k := v]> (default ∅ (existing !! name))
                            | None => default ∅ (existing !! name)
                            end)
                  end)).
  - intros name. by rewrite lookup_empty.
  - intros i x m r Hi IH name. unfold merge_step.
    pose proof (IH i) as Hri. rewrite Hi in Hri.
    destruct (decide (i = name)) as [-> | Hne].
    + rewrite lookup_insert_eq.
      destruct (r !! name) as [old |] eqn:Hr; rewrite <- Hri;
        destruct (x !! k) as [v |];
        rewrite ?lookup_insert_eq, ?Hr; reflexivity.
    + rewrite lookup_insert_ne by exact Hne. rewrite <- IH.
      destruct (r !! i), (x !! k);
        rewrite ?lookup_insert_ne by exact Hne; reflexivity.
Qed.

End MergeFacts.

(** X23: the merge keeps history: under every section name, the entry of
    any year other than the current one is what it was before, whatever
    the new data holds. *)
Theorem merge_current_year_keeps_history {V : Type} (k year_key : string)
    (existing new : gmap string (gmap string V)) (name : string) :
  year_key <> k ->
  merge_current_year k existing new !! name ≫= (.!! year_key)
  = existing !! name ≫= (.!! year_key).
Proof.
  intros Hne. rewrite merge_current_year_lookup.
  destruct (new !! name) as [data |]; [| reflexivity].
  destruct (data !! k) as [v |], (existing !! name) as [old |]; simpl;
    rewrite ?lookup_insert_ne by congruence; rewrite ?lookup_empty;
    reflexivity.
Qed.

Lemma merge_current_year_keeps_history_witness :
  merge_current_year "2025"
    {[ "us_academic"%string := {[ "2024"%string := 551 ]} ]}
    {[ "us_academic"%string :=
         {[ "2024"%string := 0; "2025"%string := 17 ]} ]}
    !! "us_academic"%string ≫= (.!! "2024"%string)
  = ({[ "us_academic"%string := {[ "2024"%string := 551 ]} ]}
       : gmap string (gmap string Z))
      !! "us_academic"%string ≫= (.!! "2024"%string).
Proof. apply merge_current_year_keeps_history. discriminate. Defined.

(** X24: under every section name, the entry of the current year after
    the merge is the new one when the new data has one for that section,
    and the old one otherwise. *)
Theorem merge_current_year_current {V : Type} (k : string)
    (existing new : gmap string (gmap string V)) (name : string) :
  merge_current_year k existing new !! name ≫= (.!! k)
  = match new !! name ≫= (.!! k) with
    | Some v => Some v
    | None => existing !! name ≫= (.!! k)
    end.
Proof.
  rewrite merge_current_year_lookup.
  destruct (new !! name) as [data |]; [| reflexivity]. simpl.
  destruct (data !! k) as [v |], (existing !! name) as [old |]; simpl;
    rewrite ?lookup_insert_eq, ?lookup_empty; reflexivity.
Qed.

(** ** The year the truncation is keyed on *)

(** The truncation of [generate_data_json] is keyed on the literal 2025:
    the series of any other year is handed on uncut. *)
Lemma truncate_current_other_year (year : Z) (weeks cumulative : list Z) :
  year <> 2025 ->
  truncate_current year weeks cumulative = (weeks, cumulative).
Proof.
  intros Hy. unfold truncate_current.
  destruct (Z.eqb_spec year 2025); [contradiction | reflexivity].
Qed.

(** On a frame whose latest academic year is 2026, the series of 2026
    keeps all its 28 entries, although its last strict increase is at
    index 8 (week 38); under the key 2025 the same lists are cut to 9
    entries. *)
Lemma section_entry_latest_year_2026 :
  create_weekly_cumulative latest_rows !! 2026 = Some latest_series
  /\ (forall y : Z,
        is_Some (create_weekly_cumulative latest_rows !! y) -> y <= 2026)
  /\ at_index (cumulative latest_series) 7
     < at_index (cumulative latest_series) 8
  /\ section_entry 2026 latest_series = latest_series
  /\ length (cumulative (section_entry 2026 latest_series)) = 28%nat
  /\ truncate_current 2025 (weeks latest_series) (cumulative latest_series)
     = (take 9 (weeks latest_series), take 9 (cumulative latest_series)).
Proof.
  split; [vm_compute; reflexivity |].
  split; [| repeat split; vm_compute; reflexivity].
  intros y [s Hs]. apply create_weekly_cumulative_lookup in Hs.
  destruct Hs as [(r & Hr & <-) _].
  assert (Hall : Forall (fun r => academic_year r <= 2026) latest_rows)
    by (repeat constructor; vm_compute; discriminate).
  rewrite Forall_forall in Hall. exact (Hall r Hr).
Qed.
